(** * NocoDB MCP server: tool dispatch and request translation

    A shallow embedding of the [NocoDBServer] class: the nine tool
    handlers, the [CallToolRequestSchema] dispatcher and the
    [executeCommand] entry point, together with the fragment of
    JavaScript they rely on (property access, truthiness, template
    literals, [Object.keys], [JSON.stringify], [try]/[catch]).

    Handlers are programs in a small free monad whose only effect is an
    HTTP request through the axios instance; running a program against a
    remote service (an oracle) yields its outcome and the log of the
    requests it issued.  [console.error] diagnostics are left out. *)

From Stdlib Require Import String Ascii List ZArith Lia Bool DecimalString.
Import ListNotations.
Local Open Scope list_scope.
Local Open Scope string_scope.
Set Warnings "-register-all".

(* ================================================================= *)
(** ** JavaScript values *)

(** JSON data as it arrives on the wire (tool arguments, response
    bodies).  Numbers are the integers, which JavaScript prints in
    plain decimal digits up to 10^21; strings are sequences of ASCII
    characters; an object keeps its properties in enumeration order,
    each key once.  [undefined] is not a JSON value: a JavaScript value
    that may be [undefined] is an [option json], [None] standing for
    [undefined]. *)
Inductive json : Type :=
| JNull
| JBool (b : bool)
| JNum (n : Z)
| JStr (s : string)
| JArr (items : list json)
| JObj (props : list (string * json)).

Module JS.

Definition nl : string := String "010"%char EmptyString.
Definition dq : string := String "034"%char EmptyString.

(** Decimal text of an integer, as [Number.prototype.toString] prints it. *)
Definition dec (n : Z) : string := NilZero.string_of_int (Z.to_int n).

Definition of_nat (n : nat) : json := JNum (Z.of_nat n).

(** Own-property lookup in an object. *)
Fixpoint assoc {V : Type} (k : string) (kv : list (string * V)) : option V :=
  match kv with
  | [] => None
  | (k', v) :: rest => if String.eqb k k' then Some v else assoc k rest
  end.

(** [v.k] for a value [v] that is neither [null] nor [undefined].  The
    program only reads properties named by identifiers, so for arrays
    and strings [length] is the one property that exists. *)
Definition prop (v : json) (k : string) : option json :=
  match v with
  | JObj kv => assoc k kv
  | JArr l => if String.eqb k "length" then Some (of_nat (List.length l)) else None
  | JStr s => if String.eqb k "length" then Some (of_nat (String.length s)) else None
  | _ => None
  end.

(** [v.k] read off a value that may be [undefined], where it does not throw. *)
Definition get (v : option json) (k : string) : option json :=
  match v with
  | Some x => prop x k
  | None => None
  end.

(** ToBoolean. *)
Definition truthy (v : option json) : bool :=
  match v with
  | None | Some JNull => false
  | Some (JBool b) => b
  | Some (JNum n) => negb (Z.eqb n 0)
  | Some (JStr s) => negb (String.eqb s EmptyString)
  | Some (JArr _) | Some (JObj _) => true
  end.

(** A destructuring default [{ x = d }]: used when the property is
    [undefined], and only then. *)
Definition default (v : option json) (d : json) : json :=
  match v with
  | None => d
  | Some x => x
  end.

(** ToString, as a template literal applies it. *)
Fixpoint to_String (v : json) : string :=
  match v with
  | JNull => "null"
  | JBool true => "true"
  | JBool false => "false"
  | JNum n => dec n
  | JStr s => s
  | JArr l =>
      (fix join (l : list json) : string :=
         match l with
         | [] => EmptyString
         | x :: rest =>
             let e := match x with JNull => EmptyString | _ => to_String x end in
             match rest with
             | [] => e
             | _ :: _ => e ++ "," ++ join rest
             end
         end) l
  | JObj _ => "[object Object]"
  end.

Definition tpl (v : option json) : string :=
  match v with
  | None => "undefined"
  | Some x => to_String x
  end.

Definition tpl_str (v : option string) : string :=
  match v with
  | None => "undefined"
  | Some s => s
  end.

(** The names [Object.keys] lists for a value that is not [null]. *)
Definition indices (n : nat) : list string :=
  map (fun i => dec (Z.of_nat i)) (seq 0 n).

Definition own_keys (v : json) : list string :=
  match v with
  | JObj kv => map fst kv
  | JArr l => indices (List.length l)
  | JStr s => indices (String.length s)
  | _ => []
  end.

(** *** JSON.stringify *)

Definition hex_digit (n : nat) : ascii :=
  ascii_of_nat (if Nat.ltb n 10 then 48 + n else 87 + n).

Definition escape_char (c : ascii) : string :=
  let n := nat_of_ascii c in
  if Nat.eqb n 34 then String "092"%char dq
  else if Nat.eqb n 92 then String "092"%char (String "092"%char EmptyString)
  else if Nat.eqb n 8 then String "092"%char "b"
  else if Nat.eqb n 9 then String "092"%char "t"
  else if Nat.eqb n 10 then String "092"%char "n"
  else if Nat.eqb n 12 then String "092"%char "f"
  else if Nat.eqb n 13 then String "092"%char "r"
  else if Nat.ltb n 32 then
    String "092"%char ("u00" ++ String (hex_digit (n / 16)) (String (hex_digit (n mod 16)) EmptyString))
  else String c EmptyString.

Fixpoint escape (s : string) : string :=
  match s with
  | EmptyString => EmptyString
  | String c rest => escape_char c ++ escape rest
  end.

Definition quote (s : string) : string := dq ++ escape s ++ dq.

(** [JSON.stringify(v)]. *)
Fixpoint stringify (v : json) : string :=
  match v with
  | JNull => "null"
  | JBool true => "true"
  | JBool false => "false"
  | JNum n => dec n
  | JStr s => quote s
  | JArr l =>
      "[" ++ (fix items (l : list json) : string :=
                match l with
                | [] => EmptyString
                | x :: rest =>
                    match rest with
                    | [] => stringify x
                    | _ :: _ => stringify x ++ "," ++ items rest
                    end
                end) l ++ "]"
  | JObj kv =>
      "{" ++ (fix members (kv : list (string * json)) : string :=
                match kv with
                | [] => EmptyString
                | (k, x) :: rest =>
                    match rest with
                    | [] => quote k ++ ":" ++ stringify x
                    | _ :: _ => quote k ++ ":" ++ stringify x ++ "," ++ members rest
                    end
                end) kv ++ "}"
  end.

(** [JSON.stringify(v, null, 2)] below the indentation [ind]. *)
Fixpoint stringify_indented (ind : string) (v : json) : string :=
  let ind' := ind ++ "  " in
  match v with
  | JNull => "null"
  | JBool true => "true"
  | JBool false => "false"
  | JNum n => dec n
  | JStr s => quote s
  | JArr [] => "[]"
  | JArr l =>
      "[" ++ nl ++
      (fix items (l : list json) : string :=
         match l with
         | [] => EmptyString
         | x :: rest =>
             match rest with
             | [] => ind' ++ stringify_indented ind' x
             | _ :: _ => ind' ++ stringify_indented ind' x ++ "," ++ nl ++ items rest
             end
         end) l ++ nl ++ ind ++ "]"
  | JObj [] => "{}"
  | JObj kv =>
      "{" ++ nl ++
      (fix members (kv : list (string * json)) : string :=
         match kv with
         | [] => EmptyString
         | (k, x) :: rest =>
             match rest with
             | [] => ind' ++ quote k ++ ": " ++ stringify_indented ind' x
             | _ :: _ =>
                 ind' ++ quote k ++ ": " ++ stringify_indented ind' x ++ "," ++ nl ++ members rest
             end
         end) kv ++ nl ++ ind ++ "}"
  end.

Definition stringify2 (v : json) : string := stringify_indented EmptyString v.

End JS.

(* ================================================================= *)
(** ** Exceptions, HTTP requests and asynchronous programs *)

(** The members of the SDK's [ErrorCode] that the server uses. *)
Inductive ErrorCode : Type := MethodNotFound | InvalidRequest | InternalError.

(** Thrown values.  [McpError] is the SDK's class; every other thrown
    value (an [Error] made by a handler, the error axios rejects with, a
    [TypeError] of the runtime) is only ever read through [message]. *)
Inductive exn : Type :=
| Error (msg : string)
| McpError (code : ErrorCode) (msg : string).

Definition message (e : exn) : string :=
  match e with
  | Error m => m
  | McpError _ m => m
  end.

Inductive verb : Type := GET | POST | PATCH | DELETE.

(** A request body: an object literal built by a handler, whose
    property values may be [undefined], or a value passed through. *)
Inductive payload : Type :=
| Fields (fs : list (string * option json))
| Value (v : json).

(** One call on the axios instance: [params] is the [params] object of
    the request config when one is given, [data] the body argument. *)
Record call : Type := Call {
  method : verb;
  url : string;
  params : option (list (string * option json));
  data : option payload
}.

(** How the awaited promise settles: fulfilled with a response, of which
    the program reads [response.data], or rejected with an error, of
    which it reads [error.message]. *)
Inductive http_result : Type :=
| Resolved (response_data : json)
| Rejected (error_message : string).

(** An [async] function body: it returns, throws, or awaits a request
    and goes on with what the promise settles to. *)
Inductive prog (A : Type) : Type :=
| Ret (a : A)
| Throw (e : exn)
| Http (c : call) (k : http_result -> prog A).

Arguments Ret {A} a.
Arguments Throw {A} e.
Arguments Http {A} c k.

Fixpoint bind {A B : Type} (p : prog A) (f : A -> prog B) : prog B :=
  match p with
  | Ret a => f a
  | Throw e => Throw e
  | Http c k => Http c (fun r => bind (k r) f)
  end.

(** [try { p } catch (error) { h error }]. *)
Fixpoint try_catch {A : Type} (p : prog A) (h : exn -> prog A) : prog A :=
  match p with
  | Ret a => Ret a
  | Throw e => h e
  | Http c k => Http c (fun r => try_catch (k r) h)
  end.

Notation "x <- p ;; q" := (bind p (fun x => q))
  (at level 61, p at next level, right associativity).
Notation "p ;; q" := (bind p (fun _ => q))
  (at level 61, right associativity).

(** [await this.axiosInstance.<method>(...)], yielding [response.data]. *)
Definition await (c : call) : prog json :=
  Http c (fun r =>
    match r with
    | Resolved d => Ret d
    | Rejected m => Throw (Error m)
    end).

(** [v.k] where [v] may be [null] or [undefined].  The messages of the
    [TypeError]s, here and below, are worded as V8 words them; nothing
    that is proved depends on the wording. *)
Definition member (v : option json) (k : string) : prog (option json) :=
  match v with
  | None =>
      Throw (Error ("Cannot read properties of undefined (reading '" ++ k ++ "')"))
  | Some JNull =>
      Throw (Error ("Cannot read properties of null (reading '" ++ k ++ "')"))
  | Some x => Ret (JS.prop x k)
  end.

(** [const { first, ... } = args]: the value the properties are then
    read from. *)
Definition destructure (args : option json) (first : string) : prog json :=
  match args with
  | None =>
      Throw (Error ("Cannot destructure property '" ++ first ++ "' of 'args' as it is undefined."))
  | Some JNull =>
      Throw (Error ("Cannot destructure property '" ++ first ++ "' of 'args' as it is null."))
  | Some x => Ret x
  end.

(** [Object.keys(v)]. *)
Definition Object_keys (v : json) : prog (list string) :=
  match v with
  | JNull => Throw (Error "Cannot convert undefined or null to object")
  | _ => Ret (JS.own_keys v)
  end.

(** The elements a [for (const column of columns)] loop visits. *)
Definition iterate (v : option json) (what : string) : prog (list json) :=
  match v with
  | Some (JArr l) => Ret l
  | Some (JStr s) => Ret (map (fun c => JStr (String c EmptyString)) (list_ascii_of_string s))
  | _ => Throw (Error (what ++ " is not iterable"))
  end.

(** *** Running a program against a remote service *)

Inductive outcome (A : Type) : Type :=
| Returned (a : A)
| Threw (e : exn).

Arguments Returned {A} a.
Arguments Threw {A} e.

Definition event : Type := call * http_result.

(** The remote service, as a stub client: what a request settles to,
    given the requests made before it. *)
Definition remote : Type := list event -> call -> http_result.

Fixpoint run {A : Type} (p : prog A) (srv : remote) (log : list event)
  : outcome A * list event :=
  match p with
  | Ret a => (Returned a, log)
  | Throw e => (Threw e, log)
  | Http c k => let r := srv log c in run (k r) srv (log ++ [(c, r)])%list
  end.

(** Outcome and requests of a program started on an empty log. *)
Definition exec {A : Type} (p : prog A) (srv : remote) : outcome A * list event :=
  run p srv [].

Definition calls (log : list event) : list call := map fst log.

(* ================================================================= *)
(** ** Configuration and result envelopes *)

(** The variables read from [process.env]. *)
Record Env : Type := {
  env_NOCODB_URL : option string;
  env_NOCODB_AUTH_TOKEN : option string;
  env_NOCODB_BASE_ID : option string;
  env_API_VERSION : option string
}.

Record Config : Type := {
  NOCODB_URL : string;
  NOCODB_AUTH_TOKEN : option string;
  NOCODB_BASE_ID : option string;
  API_VERSION : string
}.

(** [process.env.X || d]. *)
Definition or_default (v : option string) (d : string) : string :=
  match v with
  | None => d
  | Some s => if String.eqb s EmptyString then d else s
  end.

Definition load_config (e : Env) : Config := {|
  NOCODB_URL := or_default (env_NOCODB_URL e) "http://localhost:8080";
  NOCODB_AUTH_TOKEN := env_NOCODB_AUTH_TOKEN e;
  NOCODB_BASE_ID := env_NOCODB_BASE_ID e;
  API_VERSION := or_default (env_API_VERSION e) "v2"
|}.

Record TextContent : Type := { type : string; text : string }.

(** What a tool call answers; [isError] is [None] where the object
    literal has no such property. *)
Record CallToolResult : Type := {
  content : list TextContent;
  isError : option bool
}.

Definition text_result (t : string) : CallToolResult :=
  {| content := [ {| type := "text"; text := t |} ]; isError := None |}.

Definition error_result (t : string) : CallToolResult :=
  {| content := [ {| type := "text"; text := t |} ]; isError := Some true |}.

(** The [name] and [required] entries of the tools declared to
    [ListToolsRequestSchema], in declaration order. *)
Definition tools : list (string * list string) :=
  [ ("list_projects", []);
    ("create_project", ["title"]);
    ("list_tables", ["projectId"]);
    ("create_table", ["projectId"; "tableName"; "columns"]);
    ("query_table", ["projectId"; "tableName"]);
    ("insert_record", ["projectId"; "tableName"; "data"]);
    ("update_record", ["projectId"; "tableName"; "recordId"; "data"]);
    ("delete_record", ["projectId"; "tableName"; "recordId"]);
    ("query_table_by_name", ["tableName"]) ].

Definition operations : list string := map fst tools.

(* ================================================================= *)
(** ** The handlers *)

Section Handlers.

Variable cfg : Config.

Definition get (u : string) : call :=
  {| method := GET; url := u; params := None; data := None |}.

Definition get_with (u : string) (ps : list (string * option json)) : call :=
  {| method := GET; url := u; params := Some ps; data := None |}.

Definition post (u : string) (b : option payload) : call :=
  {| method := POST; url := u; params := None; data := b |}.

Definition patch (u : string) (b : option payload) : call :=
  {| method := PATCH; url := u; params := None; data := b |}.

Definition delete (u : string) : call :=
  {| method := DELETE; url := u; params := None; data := None |}.

Definition listProjects : prog CallToolResult :=
  try_catch
    (response_data <- await (get "/api/v1/db/meta/projects") ;;
     Ret (text_result (JS.stringify2 response_data)))
    (fun error => Throw (Error ("Failed to list projects: " ++ message error))).

Definition createProject (args : option json) : prog CallToolResult :=
  a <- destructure args "title" ;;
  let title := JS.prop a "title" in
  let description := JS.default (JS.prop a "description") (JStr EmptyString) in
  try_catch
    (response_data <- await (post "/api/v1/db/meta/projects"
                               (Some (Fields [("title", title);
                                              ("description", Some description)]))) ;;
     Ret (text_result ("Project created successfully: " ++ JS.stringify2 response_data)))
    (fun error => Throw (Error ("Failed to create project: " ++ message error))).

Definition listTables (args : option json) : prog CallToolResult :=
  a <- destructure args "projectId" ;;
  let projectId := JS.prop a "projectId" in
  try_catch
    (response_data <- await (get ("/api/v1/db/meta/projects/" ++ JS.tpl projectId ++ "/tables")) ;;
     Ret (text_result (JS.stringify2 response_data)))
    (fun error => Throw (Error ("Failed to list tables: " ++ message error))).

(** The body of one column-add request. *)
Definition column_body (column_name column_type is_primary : option json)
  : list (string * option json) :=
  ([("column_name", column_name);
    ("title", column_name);
    ("uidt", column_type)]
   ++ (if JS.truthy is_primary then [("pk", Some (JBool true))] else []))%list.

Definition add_column (tableId : option json) (column : json) : prog unit :=
  column_name <- member (Some column) "column_name" ;;
  column_type <- member (Some column) "column_type" ;;
  is_primary <- member (Some column) "is_primary" ;;
  await (post ("/api/v1/db/meta/tables/" ++ JS.tpl tableId ++ "/columns")
           (Some (Fields (column_body column_name column_type is_primary)))) ;;
  Ret tt.

(** The loop over the columns, one awaited request per pass. *)
Fixpoint add_columns (tableId : option json) (columns : list json) : prog unit :=
  match columns with
  | [] => Ret tt
  | column :: rest => add_column tableId column ;; add_columns tableId rest
  end.

Definition createTable (args : option json) : prog CallToolResult :=
  a <- destructure args "projectId" ;;
  let projectId := JS.prop a "projectId" in
  let tableName := JS.prop a "tableName" in
  let columns := JS.prop a "columns" in
  try_catch
    (createTableResponse_data <-
       await (post ("/api/v1/db/meta/projects/" ++ JS.tpl projectId ++ "/tables")
                (Some (Fields [("table_name", tableName)]))) ;;
     tableId <- member (Some createTableResponse_data) "id" ;;
     cols <- iterate columns "columns" ;;
     add_columns tableId cols ;;
     len <- member columns "length" ;;
     Ret (text_result ("Table '" ++ JS.tpl tableName ++ "' created successfully with "
                       ++ JS.tpl len ++ " columns.")))
    (fun error => Throw (Error ("Failed to create table: " ++ message error))).

Definition queryTable (args : option json) : prog CallToolResult :=
  a <- destructure args "projectId" ;;
  let projectId := JS.prop a "projectId" in
  let tableName := JS.prop a "tableName" in
  let filters := JS.default (JS.prop a "filters") (JObj []) in
  let limit := JS.default (JS.prop a "limit") (JNum 100) in
  let offset := JS.default (JS.prop a "offset") (JNum 0) in
  try_catch
    (keys <- Object_keys filters ;;
     let queryParams :=
       ([("limit", Some limit); ("offset", Some offset)]
        ++ (if Nat.ltb 0 (List.length keys)
            then [("where", Some (JStr (JS.stringify filters)))]
            else []))%list in
     response_data <-
       await (get_with ("/api/v1/db/data/noco/" ++ JS.tpl projectId ++ "/" ++ JS.tpl tableName)
                queryParams) ;;
     Ret (text_result (JS.stringify2 response_data)))
    (fun error => Throw (Error ("Failed to query table: " ++ message error))).

Definition insertRecord (args : option json) : prog CallToolResult :=
  a <- destructure args "projectId" ;;
  let projectId := JS.prop a "projectId" in
  let tableName := JS.prop a "tableName" in
  let data := JS.prop a "data" in
  try_catch
    (response_data <-
       await (post ("/api/v1/db/data/noco/" ++ JS.tpl projectId ++ "/" ++ JS.tpl tableName)
                (option_map Value data)) ;;
     Ret (text_result ("Record inserted successfully: " ++ JS.stringify2 response_data)))
    (fun error => Throw (Error ("Failed to insert record: " ++ message error))).

Definition updateRecord (args : option json) : prog CallToolResult :=
  a <- destructure args "projectId" ;;
  let projectId := JS.prop a "projectId" in
  let tableName := JS.prop a "tableName" in
  let recordId := JS.prop a "recordId" in
  let data := JS.prop a "data" in
  try_catch
    (response_data <-
       await (patch ("/api/v1/db/data/noco/" ++ JS.tpl projectId ++ "/" ++ JS.tpl tableName
                     ++ "/" ++ JS.tpl recordId)
                (option_map Value data)) ;;
     Ret (text_result ("Record updated successfully: " ++ JS.stringify2 response_data)))
    (fun error => Throw (Error ("Failed to update record: " ++ message error))).

Definition deleteRecord (args : option json) : prog CallToolResult :=
  a <- destructure args "projectId" ;;
  let projectId := JS.prop a "projectId" in
  let tableName := JS.prop a "tableName" in
  let recordId := JS.prop a "recordId" in
  try_catch
    (await (delete ("/api/v1/db/data/noco/" ++ JS.tpl projectId ++ "/" ++ JS.tpl tableName
                    ++ "/" ++ JS.tpl recordId)) ;;
     Ret (text_result "Record deleted successfully."))
    (fun error => Throw (Error ("Failed to delete record: " ++ message error))).

(** The count extraction and summary sentence that both branches of
    [queryTableByName] apply to [response.data]. *)
Definition summary_text (tableName totalCount recordCount : option json) : string :=
  "Table " ++ JS.tpl tableName ++ " contains " ++ JS.tpl totalCount
  ++ " total records. Retrieved " ++ JS.tpl recordCount ++ " records.".

Definition count_summary (tableName : option json) (response_data : json)
  : prog CallToolResult :=
  list <- member (Some response_data) "list" ;;
  recordCount <- (if JS.truthy list then member list "length"
                  else Ret (Some (JNum 0))) ;;
  pageInfo <- member (Some response_data) "pageInfo" ;;
  totalCount <- (if JS.truthy pageInfo then member pageInfo "totalRows"
                 else Ret recordCount) ;;
  Ret (text_result (summary_text tableName totalCount recordCount)).

Definition primary_call (tableName : option json) (limit : json) : call :=
  get_with ("/api/" ++ API_VERSION cfg ++ "/tables/" ++ JS.tpl tableName ++ "/records")
    [("limit", Some limit); ("baseId", option_map JStr (NOCODB_BASE_ID cfg))].

Definition alternative_call (tableName : option json) (limit : json) : call :=
  get_with ("/api/" ++ API_VERSION cfg ++ "/bases/" ++ JS.tpl_str (NOCODB_BASE_ID cfg)
            ++ "/tables/" ++ JS.tpl tableName ++ "/records")
    [("limit", Some limit)].

Definition queryTableByName (args : option json) : prog CallToolResult :=
  a <- destructure args "tableName" ;;
  let tableName := JS.prop a "tableName" in
  let limit := JS.default (JS.prop a "limit") (JNum 100) in
  try_catch
    (response_data <- await (primary_call tableName limit) ;;
     count_summary tableName response_data)
    (fun error =>
       try_catch
         (response_data <- await (alternative_call tableName limit) ;;
          count_summary tableName response_data)
         (fun alternativeError =>
            Throw (Error ("Failed to query table by name: " ++ message error
                          ++ ". Alternative approach also failed: "
                          ++ message alternativeError)))).

(** *** The two entry points *)

Record CallToolRequest : Type := {
  name : string;
  arguments : option (list (string * json))
}.

(** The [switch (toolName)] of the tool-call handler. *)
Definition tool_switch (toolName : string) (args : option json) : prog CallToolResult :=
  if String.eqb toolName "list_projects" then listProjects
  else if String.eqb toolName "create_project" then createProject args
  else if String.eqb toolName "list_tables" then listTables args
  else if String.eqb toolName "create_table" then createTable args
  else if String.eqb toolName "query_table" then queryTable args
  else if String.eqb toolName "insert_record" then insertRecord args
  else if String.eqb toolName "update_record" then updateRecord args
  else if String.eqb toolName "delete_record" then deleteRecord args
  else if String.eqb toolName "query_table_by_name" then queryTableByName args
  else Throw (McpError MethodNotFound ("Unknown tool: " ++ toolName)).

(** The handler registered for [CallToolRequestSchema]. *)
Definition callTool (request : CallToolRequest) : prog CallToolResult :=
  let toolName := name request in
  let args := Some (JObj (match arguments request with
                          | Some kv => kv
                          | None => []
                          end)) in
  try_catch
    (tool_switch toolName args)
    (fun error =>
       match error with
       | McpError _ _ => Throw error
       | Error m => Ret (error_result ("Error: " ++ m))
       end).

(** The [case] a [switch] on [v] selects among string labels. *)
Definition case_label (v : option json) : option string :=
  match v with
  | Some (JStr s) => Some s
  | _ => None
  end.

Definition is_case (v : option json) (label : string) : bool :=
  match case_label v with
  | Some s => String.eqb s label
  | None => false
  end.

Definition executeCommand (comando : json) : prog CallToolResult :=
  try_catch
    (action <- member (Some comando) "action" ;;
     let comando_params := JS.prop comando "params" in
     if is_case action "list_projects" then listProjects
     else if is_case action "list_tables" then listTables comando_params
     else if is_case action "query_table" then queryTable comando_params
     else if is_case action "insert_record" then insertRecord comando_params
     else if is_case action "update_record" then updateRecord comando_params
     else if is_case action "delete_record" then deleteRecord comando_params
     else if is_case action "query_table_by_name" then queryTableByName comando_params
     else Throw (Error ("Comando desconhecido: " ++ JS.tpl action)))
    (fun error => Throw error).

End Handlers.

(* ================================================================= *)
(** ** The resource handlers *)

(** [s.replace(pat, "")] for a string pattern: the first occurrence of
    [pat] is taken out. *)
Fixpoint remove_first (pat s : string) : string :=
  if String.prefix pat s then String.substring (String.length pat)
                                (String.length s - String.length pat) s
  else match s with
       | EmptyString => EmptyString
       | String c rest => String c (remove_first pat rest)
       end.

(** [s.split(sep)] for a separator of one character. *)
Fixpoint split (sep : ascii) (s : string) : list string :=
  match s with
  | EmptyString => [EmptyString]
  | String c rest =>
      if Ascii.eqb c sep then EmptyString :: split sep rest
      else match split sep rest with
           | [] => [String c EmptyString]
           | part :: parts => String c part :: parts
           end
  end.

(** [v || []]. *)
Definition or_empty (v : option json) : json :=
  match v with
  | Some x => if JS.truthy v then x else JArr []
  | None => JArr []
  end.

(** The own enumerable properties an object spread [{...v}] copies. *)
Definition spread (v : json) : list (string * json) :=
  match v with
  | JObj kv => kv
  | JArr l => combine (JS.indices (List.length l)) l
  | JStr s => combine (JS.indices (String.length s))
                (map (fun c => JStr (String c EmptyString)) (list_ascii_of_string s))
  | _ => []
  end.

(** A property written after a spread in an object literal: it takes
    the place of a copied property of the same name, or comes last. *)
Fixpoint set_prop (kv : list (string * json)) (k : string) (v : json)
  : list (string * json) :=
  match kv with
  | [] => [(k, v)]
  | (k', v') :: rest =>
      if String.eqb k k' then (k, v) :: rest else (k', v') :: set_prop rest k v
  end.

Module Resources.

Record Resource : Type := {
  uri : string;
  mimeType : string;
  name : option json;
  description : string
}.

Record ListResourcesResult : Type := { resources : list Resource }.

Record ResourceContents : Type := {
  contents_uri : string;
  contents_mimeType : string;
  text : string
}.

Record ReadResourceResult : Type := { contents : list ResourceContents }.

Definition project_resource (project : json) : Resource :=
  {| uri := "nocodb://project/" ++ JS.tpl (JS.prop project "id");
     mimeType := "application/json";
     name := JS.prop project "title";
     description := "NocoDB project: " ++ JS.tpl (JS.prop project "title") |}.

Definition table_resource (project table : json) : Resource :=
  {| uri := "nocodb://table/" ++ JS.tpl (JS.prop project "id") ++ "/"
            ++ JS.tpl (JS.prop table "id");
     mimeType := "application/json";
     name := JS.prop table "title";
     description := "Table " ++ JS.tpl (JS.prop table "title") ++ " in project "
                    ++ JS.tpl (JS.prop project "title") |}.

(** The loop that pushes one resource per table.  It makes no request;
    reading [table.id] of a [null] entry throws, and what was pushed
    until then stays in the array, the enclosing [catch] only logging
    the error.  So the loop yields the array as it leaves it. *)
Fixpoint push_tables (project : json) (tables : list json) (resources : list Resource)
  : list Resource :=
  match tables with
  | [] => resources
  | table :: rest =>
      match table with
      | JNull => resources
      | _ => push_tables project rest (resources ++ [table_resource project table])%list
      end
  end.

Definition tables_call (project : json) : call :=
  get ("/api/v1/db/meta/projects/" ++ JS.tpl (JS.prop project "id") ++ "/tables").

(** The inner [try]: the tables of one project, whose failure is
    logged and leaves the array as it was. *)
Definition push_project_tables (project : json) (resources : list Resource)
  : prog (list Resource) :=
  try_catch
    (tablesResponse_data <- await (tables_call project) ;;
     list <- member (Some tablesResponse_data) "list" ;;
     tables <- iterate (Some (or_empty list)) "tables" ;;
     Ret (push_tables project tables resources))
    (fun error => Ret resources).

(** The loop over the projects. *)
Fixpoint push_projects (projects : list json) (resources : list Resource)
  : prog (list Resource) :=
  match projects with
  | [] => Ret resources
  | project :: rest =>
      member (Some project) "id" ;;
      resources' <- push_project_tables project
                      (resources ++ [project_resource project])%list ;;
      push_projects rest resources'
  end.

(** The handler registered for [ListResourcesRequestSchema]. *)
Definition listResources : prog ListResourcesResult :=
  try_catch
    (projectsResponse_data <- await (get "/api/v1/db/meta/projects") ;;
     list <- member (Some projectsResponse_data) "list" ;;
     projects <- iterate (Some (or_empty list)) "projects" ;;
     resources <- push_projects projects [] ;;
     Ret {| resources := resources |})
    (fun error => Ret {| resources := [] |}).

Definition json_contents (uri text : string) : ReadResourceResult :=
  {| contents := [ {| contents_uri := uri;
                      contents_mimeType := "application/json";
                      text := text |} ] |}.

(** The handler registered for [ReadResourceRequestSchema], on
    [request.params.uri]. *)
Definition readResource (uri : string) : prog ReadResourceResult :=
  if String.prefix "nocodb://project/" uri then
    let projectId := remove_first "nocodb://project/" uri in
    try_catch
      (projectResponse_data <- await (get ("/api/v1/db/meta/projects/" ++ projectId)) ;;
       tablesResponse_data <-
         await (get ("/api/v1/db/meta/projects/" ++ projectId ++ "/tables")) ;;
       list <- member (Some tablesResponse_data) "list" ;;
       let projectData :=
         JObj (set_prop (spread projectResponse_data) "tables" (or_empty list)) in
       Ret (json_contents uri (JS.stringify2 projectData)))
      (fun error =>
         Throw (McpError InternalError
                  ("Erro Não conhecido ao buscar projeto: " ++ message error)))
  else if String.prefix "nocodb://table/" uri then
    let parts := split "/" (remove_first "nocodb://table/" uri) in
    let projectId := nth_error parts 0 in
    let tableId := nth_error parts 1 in
    try_catch
      (tableResponse_data <-
         await (get ("/api/v1/db/meta/tables/" ++ JS.tpl_str tableId)) ;;
       title <- member (Some tableResponse_data) "title" ;;
       recordsResponse_data <-
         await (get ("/api/v1/db/data/noco/" ++ JS.tpl_str projectId ++ "/" ++ JS.tpl title)) ;;
       list <- member (Some recordsResponse_data) "list" ;;
       Ret (json_contents uri
              (JS.stringify2 (JObj [("metadata", tableResponse_data);
                                    ("records", or_empty list)]))))
      (fun error =>
         Throw (McpError InternalError
                  ("Erro ao buscar dados da tabela: " ++ message error)))
  else Throw (McpError InvalidRequest ("Formato de URI inválido: " ++ uri)).

End Resources.

(* ================================================================= *)
(** ** Stub clients and the vocabulary of the statements *)

(** A stub client that settles every request the same way. *)
Definition always (r : http_result) : remote := fun _ _ => r.

(** A stub client that settles the n-th request with the n-th entry of
    a script, and rejects once the script is used up. *)
Definition scripted (rs : list http_result) : remote :=
  fun log _ => nth (List.length log) rs (Rejected "socket hang up").

(** The text each handler puts before the message of the error it
    caught, by tool name. *)
Definition failure_prefix (toolName : string) : string :=
  if String.eqb toolName "list_projects" then "Failed to list projects: "
  else if String.eqb toolName "create_project" then "Failed to create project: "
  else if String.eqb toolName "list_tables" then "Failed to list tables: "
  else if String.eqb toolName "create_table" then "Failed to create table: "
  else if String.eqb toolName "query_table" then "Failed to query table: "
  else if String.eqb toolName "insert_record" then "Failed to insert record: "
  else if String.eqb toolName "update_record" then "Failed to update record: "
  else if String.eqb toolName "delete_record" then "Failed to delete record: "
  else "Failed to query table by name: ".

(** The configuration of a process started with none of the variables set. *)
Definition bare_config : Config :=
  load_config {| env_NOCODB_URL := None; env_NOCODB_AUTH_TOKEN := None;
                 env_NOCODB_BASE_ID := None; env_API_VERSION := None |}.

(** What [count_summary] extracts from a response body that is not
    [null]: the two counts of the summary sentence. *)
Definition recordCount (response_data : json) : option json :=
  let list := JS.prop response_data "list" in
  if JS.truthy list then JS.get list "length" else Some (JNum 0).

Definition totalCount (response_data : json) : option json :=
  let pageInfo := JS.prop response_data "pageInfo" in
  if JS.truthy pageInfo then JS.get pageInfo "totalRows" else recordCount response_data.

(** The counts as the specification words them: the total is the
    total-row count field of the response when that field is present,
    else the length of the returned list; the list counts 0 when absent. *)
Definition total_rows_field (response_data : json) : option json :=
  JS.get (JS.prop response_data "pageInfo") "totalRows".

Definition returned_list_length (response_data : json) : json :=
  match JS.prop response_data "list" with
  | Some (JArr l) => JS.of_nat (List.length l)
  | _ => JNum 0
  end.

Definition specified_total (response_data : json) : json :=
  match total_rows_field response_data with
  | Some t => t
  | None => returned_list_length response_data
  end.

Definition specified_summary (tableName : option json) (response_data : json) : string :=
  summary_text tableName (Some (specified_total response_data))
    (Some (returned_list_length response_data)).

(** The requests of create_table: the one that creates the table, and
    the one that adds a column to the table of identifier [tableId]. *)
Definition table_call (projectId tableName : option json) : call :=
  post ("/api/v1/db/meta/projects/" ++ JS.tpl projectId ++ "/tables")
    (Some (Fields [("table_name", tableName)])).

Definition column_call (tableId : option json) (column : json) : call :=
  post ("/api/v1/db/meta/tables/" ++ JS.tpl tableId ++ "/columns")
    (Some (Fields (column_body (JS.prop column "column_name")
                     (JS.prop column "column_type")
                     (JS.prop column "is_primary")))).

(** A stub client under which every request is fulfilled. *)
Definition fulfils_all (srv : remote) : Prop :=
  forall log c, exists d, srv log c = Resolved d.

(** A program stops at the first rejected request: a rejection it logs
    is one that was logged before it started, or the error it throws. *)
Definition fail_fast {A : Type} (p : prog A) : Prop :=
  forall srv log c m,
    In (c, Rejected m) (snd (run p srv log)) ->
    In (c, Rejected m) log \/ fst (run p srv log) = Threw (Error m).


(** The path of one record. *)
Definition record_path (projectId tableName recordId : json) : string :=
  "/api/v1/db/data/noco/" ++ JS.to_String projectId ++ "/" ++ JS.to_String tableName
  ++ "/" ++ JS.to_String recordId.

(** The actions [executeCommand] has a [case] for. *)
Definition commands : list string :=
  ["list_projects"; "list_tables"; "query_table"; "insert_record"; "update_record";
   "delete_record"; "query_table_by_name"].

(** The tools whose handler is one awaited request and nothing else. *)
Definition single_request_tools : list string :=
  ["list_projects"; "create_project"; "list_tables"; "insert_record"; "update_record";
   "delete_record"].

(** The tools that only read from the remote service. *)
Definition reading_tools : list string :=
  ["list_projects"; "list_tables"; "query_table"; "query_table_by_name"].

(** The properties of the argument bag that some handler reads. *)
Definition argument_names : list string :=
  ["title"; "description"; "projectId"; "tableName"; "columns"; "filters"; "limit";
   "offset"; "recordId"; "data"].

(** A handler that, when it returns, returns one text block and no
    error flag. *)
Definition returns_text (p : prog CallToolResult) : Prop :=
  forall srv log a, fst (run p srv log) = Returned a -> exists t, a = text_result t.

(** A program all of whose requests satisfy [P]. *)
Definition requests_only {A : Type} (P : call -> Prop) (p : prog A) : Prop :=
  forall srv log,
    Forall P (calls log) -> Forall P (calls (snd (run p srv log))).

Definition is_get (c : call) : Prop := method c = GET.

Fixpoint has_char (c : ascii) (s : string) : bool :=
  match s with
  | EmptyString => false
  | String c' rest => Ascii.eqb c' c || has_char c rest
  end.

(** The HTTP method of each tool. *)
Definition tool_verb (toolName : string) : verb :=
  if String.eqb toolName "create_project" then POST
  else if String.eqb toolName "create_table" then POST
  else if String.eqb toolName "insert_record" then POST
  else if String.eqb toolName "update_record" then PATCH
  else if String.eqb toolName "delete_record" then DELETE
  else GET.

(** A stub client whose answer depends on the request alone. *)
Definition stateless (answer : call -> http_result) : remote := fun _ c => answer c.

(* ================================================================= *)
(** ** Running programs: general facts *)

Lemma run_bind {A B : Type} (p : prog A) (f : A -> prog B) (srv : remote) :
  forall log,
    run (bind p f) srv log =
    match run p srv log with
    | (Returned a, log') => run (f a) srv log'
    | (Threw e, log') => (Threw e, log')
    end.
Proof.
  induction p as [a | e | c k IH]; intros log; simpl; auto.
Qed.

Lemma run_try_catch {A : Type} (p : prog A) (h : exn -> prog A) (srv : remote) :
  forall log,
    run (try_catch p h) srv log =
    match run p srv log with
    | (Returned a, log') => (Returned a, log')
    | (Threw e, log') => run (h e) srv log'
    end.
Proof.
  induction p as [a | e | c k IH]; intros log; simpl; auto.
Qed.

Lemma run_await (c : call) (srv : remote) (log : list event) :
  run (await c) srv log =
  (match srv log c with
   | Resolved d => Returned d
   | Rejected m => Threw (Error m)
   end, (log ++ [(c, srv log c)])%list).
Proof.
  simpl. destruct (srv log c); reflexivity.
Qed.

(** A run only ever appends to the log. *)
Lemma run_extends {A : Type} (p : prog A) (srv : remote) :
  forall log, exists ext, snd (run p srv log) = (log ++ ext)%list.
Proof.
  induction p as [a | e | c k IH]; intros log; simpl.
  - exists []. now rewrite app_nil_r.
  - exists []. now rewrite app_nil_r.
  - destruct (IH (srv log c) (log ++ [(c, srv log c)])%list) as [ext E].
    exists ((c, srv log c) :: ext). rewrite E, <- app_assoc. reflexivity.
Qed.

(** Running a handler whose body sits in a [try] that rethrows with a
    prefix. *)
Lemma run_wrapped {A : Type} (body : prog A) (prefix : string) (srv : remote) (log : list event) :
  run (try_catch body (fun error => Throw (Error (prefix ++ message error)))) srv log =
  match run body srv log with
  | (Returned a, log') => (Returned a, log')
  | (Threw e, log') => (Threw (Error (prefix ++ message e)), log')
  end.
Proof.
  rewrite run_try_catch. destruct (run body srv log) as [[a | e] log']; reflexivity.
Qed.

Lemma json_null_dec (v : json) : {v = JNull} + {v <> JNull}.
Proof.
  destruct v; first [left; reflexivity | right; discriminate].
Defined.

(* ================================================================= *)
(** ** delete_record *)

(** C9.  With projectId, tableName and recordId present and the remote
    call fulfilled, delete_record issues exactly one request, a DELETE
    on the path of the record, and returns the envelope whose only text
    is the fixed sentence; nothing of the response enters it.  The tool
    call relays that envelope. *)
Theorem deleteRecord_confirmation_only :
  forall (cfg : Config) (kv : list (string * json)) (p t r : json)
         (srv : remote) (response_data : json),
    JS.assoc "projectId" kv = Some p ->
    JS.assoc "tableName" kv = Some t ->
    JS.assoc "recordId" kv = Some r ->
    srv [] (delete (record_path p t r)) = Resolved response_data ->
    exec (deleteRecord (Some (JObj kv))) srv =
      (Returned (text_result "Record deleted successfully."),
       [(delete (record_path p t r), Resolved response_data)])
    /\ exec (callTool cfg {| name := "delete_record"; arguments := Some kv |}) srv =
      (Returned (text_result "Record deleted successfully."),
       [(delete (record_path p t r), Resolved response_data)]).
Proof.
  intros cfg kv p t r srv d Hp Ht Hr Hsrv.
  assert (E : exec (deleteRecord (Some (JObj kv))) srv =
              (Returned (text_result "Record deleted successfully."),
               [(delete (record_path p t r), Resolved d)])).
  { unfold exec, deleteRecord. cbn [destructure bind].
    rewrite run_wrapped, run_bind, run_await.
    cbn [JS.prop]. rewrite Hp, Ht, Hr. cbn [JS.tpl].
    fold (record_path p t r). rewrite Hsrv. reflexivity. }
  split; [exact E|].
  unfold exec, callTool. rewrite run_try_catch.
  cbn [name arguments]. change (tool_switch cfg "delete_record" (Some (JObj kv)))
    with (deleteRecord (Some (JObj kv))).
  unfold exec in E. rewrite E. reflexivity.
Qed.

Lemma deleteRecord_confirmation_only_witness :
  exec (deleteRecord (Some (JObj [("projectId", JStr "p1"); ("tableName", JStr "Tasks");
                                  ("recordId", JNum 7)])))
       (always (Resolved (JObj [("deleted", JBool true)]))) =
    (Returned (text_result "Record deleted successfully."),
     [(delete "/api/v1/db/data/noco/p1/Tasks/7", Resolved (JObj [("deleted", JBool true)]))])
  /\ exec (callTool bare_config
             {| name := "delete_record";
                arguments := Some [("projectId", JStr "p1"); ("tableName", JStr "Tasks");
                                   ("recordId", JNum 7)] |})
          (always (Resolved (JObj [("deleted", JBool true)]))) =
    (Returned (text_result "Record deleted successfully."),
     [(delete "/api/v1/db/data/noco/p1/Tasks/7", Resolved (JObj [("deleted", JBool true)]))]).
Proof.
  apply (deleteRecord_confirmation_only bare_config
           [("projectId", JStr "p1"); ("tableName", JStr "Tasks"); ("recordId", JNum 7)]
           (JStr "p1") (JStr "Tasks") (JNum 7)); reflexivity.
Defined.

(* ================================================================= *)
(** ** Unknown tools and unknown commands *)

Lemma eqb_of_not_in (x y : string) (l : list string) :
  ~ In x l -> In y l -> String.eqb x y = false.
Proof.
  intros Hx Hy. apply String.eqb_neq. intros ->. contradiction.
Qed.

Lemma tool_switch_unknown (cfg : Config) (toolName : string) (args : option json) :
  ~ In toolName operations ->
  tool_switch cfg toolName args = Throw (McpError MethodNotFound ("Unknown tool: " ++ toolName)).
Proof.
  intros H. unfold tool_switch.
  repeat (rewrite (eqb_of_not_in toolName _ operations H) by (simpl; tauto)).
  reflexivity.
Qed.

(** C7.  For a name outside the nine tools the tool-call handler is the
    program that throws [McpError(MethodNotFound)] with the name in its
    message: it contains no handler and no request, the error reaches
    the caller as a thrown error and not as an envelope, and the log of
    requests stays empty. *)
Theorem callTool_unknown_tool :
  forall (cfg : Config) (request : CallToolRequest) (srv : remote),
    ~ In (name request) operations ->
    callTool cfg request =
      Throw (McpError MethodNotFound ("Unknown tool: " ++ name request))
    /\ exec (callTool cfg request) srv =
      (Threw (McpError MethodNotFound ("Unknown tool: " ++ name request)), []).
Proof.
  intros cfg request srv H.
  assert (E : callTool cfg request =
              Throw (McpError MethodNotFound ("Unknown tool: " ++ name request))).
  { unfold callTool. rewrite tool_switch_unknown by exact H. reflexivity. }
  split; [exact E|]. rewrite E. reflexivity.
Qed.

Lemma callTool_unknown_tool_witness :
  callTool bare_config {| name := "drop_table"; arguments := None |} =
    Throw (McpError MethodNotFound "Unknown tool: drop_table")
  /\ exec (callTool bare_config {| name := "drop_table"; arguments := None |})
          (always (Resolved JNull)) =
    (Threw (McpError MethodNotFound "Unknown tool: drop_table"), []).
Proof.
  apply (callTool_unknown_tool bare_config {| name := "drop_table"; arguments := None |}).
  cbv. intuition discriminate.
Defined.

(** C10.  [executeCommand] routes on [comando.action].  For the actions
    create_project and create_table, which the tool-call handler does
    route to their handlers, it is the program that throws the
    unknown-command error: no handler, no request.  For each of the
    other seven tools it runs the handler the tool-call handler runs,
    on [comando.params]. *)
Theorem executeCommand_covers_seven :
  forall (cfg : Config) (comando : json) (a : string),
    JS.prop comando "action" = Some (JStr a) ->
    In a operations ->
    (a = "create_project" \/ a = "create_table" ->
       executeCommand cfg comando = Throw (Error ("Comando desconhecido: " ++ a))
       /\ (forall srv, exec (executeCommand cfg comando) srv =
                         (Threw (Error ("Comando desconhecido: " ++ a)), []))
       /\ tool_switch cfg "create_project" = createProject
       /\ tool_switch cfg "create_table" = createTable)
    /\ (a <> "create_project" -> a <> "create_table" ->
          executeCommand cfg comando =
            try_catch (tool_switch cfg a (JS.prop comando "params")) (fun error => Throw error)).
Proof.
  intros cfg comando a Ha Hin.
  assert (Hm : member (Some comando) "action" = Ret (Some (JStr a))).
  { unfold member. rewrite <- Ha. destruct comando; try reflexivity. discriminate Ha. }
  split.
  - intros Hcase.
    assert (E : executeCommand cfg comando = Throw (Error ("Comando desconhecido: " ++ a))).
    { unfold executeCommand. rewrite Hm.
      destruct Hcase as [-> | ->]; reflexivity. }
    repeat split; try reflexivity; [exact E|].
    intros srv. rewrite E. reflexivity.
  - intros H1 H2. unfold executeCommand. rewrite Hm.
    simpl in Hin.
    destruct Hin as [<- | [<- | [<- | [<- | [<- | [<- | [<- | [<- | [<- | []]]]]]]]]];
      try reflexivity; congruence.
Qed.

Lemma executeCommand_covers_seven_witness :
  executeCommand bare_config
    (JObj [("action", JStr "create_table");
           ("params", JObj [("projectId", JStr "p1"); ("tableName", JStr "Tasks");
                            ("columns", JArr [])])]) =
  Throw (Error "Comando desconhecido: create_table").
Proof.
  destruct (executeCommand_covers_seven bare_config
              (JObj [("action", JStr "create_table");
                     ("params", JObj [("projectId", JStr "p1"); ("tableName", JStr "Tasks");
                                      ("columns", JArr [])])])
              "create_table") as [H _];
    [reflexivity | simpl; tauto |].
  destruct H as [E _]; [right; reflexivity | exact E].
Defined.

(* ================================================================= *)
(** ** The tool-call handler around a handler *)

(** What the [catch] of the tool-call handler makes of the outcome of
    the [switch]. *)
Lemma exec_callTool (cfg : Config) (request : CallToolRequest) (srv : remote) :
  exec (callTool cfg request) srv =
  match exec (tool_switch cfg (name request)
                (Some (JObj (match arguments request with Some kv => kv | None => [] end))))
             srv with
  | (Returned a, log) => (Returned a, log)
  | (Threw (Error m), log) => (Returned (error_result ("Error: " ++ m)), log)
  | (Threw (McpError c m), log) => (Threw (McpError c m), log)
  end.
Proof.
  unfold exec, callTool. rewrite run_try_catch.
  destruct (run _ srv []) as [[a | [m | c m]] log]; reflexivity.
Qed.

(* ================================================================= *)
(** ** query_table_by_name *)

Lemma member_truthy (v : option json) (k : string) :
  JS.truthy v = true -> member v k = Ret (JS.get v k).
Proof.
  destruct v as [[] |]; simpl; intros H; try reflexivity; discriminate H.
Qed.

Lemma member_nonnull (d : json) (k : string) :
  d <> JNull -> member (Some d) k = Ret (JS.prop d k).
Proof.
  destruct d; intros H; try reflexivity. contradiction.
Qed.

(** On a body that is not [null] the extraction does not throw. *)
Lemma count_summary_nonnull (tableName : option json) (d : json) :
  d <> JNull ->
  count_summary tableName d =
  Ret (text_result (summary_text tableName (totalCount d) (recordCount d))).
Proof.
  intros Hd. unfold count_summary, totalCount, recordCount.
  rewrite !member_nonnull by exact Hd. cbn [bind].
  destruct (JS.truthy (JS.prop d "list")) eqn:El.
  - rewrite (member_truthy _ _ El). cbn [bind].
    destruct (JS.truthy (JS.prop d "pageInfo")) eqn:Ep.
    + rewrite (member_truthy _ _ Ep). reflexivity.
    + reflexivity.
  - cbn [bind].
    destruct (JS.truthy (JS.prop d "pageInfo")) eqn:Ep.
    + rewrite (member_truthy _ _ Ep). reflexivity.
    + reflexivity.
Qed.

(** The extraction issues no request. *)
Lemma run_count_summary (tableName : option json) (d : json) (srv : remote) (log : list event) :
  snd (run (count_summary tableName d) srv log) = log.
Proof.
  destruct d; try (rewrite count_summary_nonnull by discriminate; reflexivity).
  reflexivity.
Qed.

(** The requests of a query by name, read off the argument bag. *)
Lemma queryTableByName_unfold (cfg : Config) (kv : list (string * json)) :
  queryTableByName cfg (Some (JObj kv)) =
  let tableName := JS.assoc "tableName" kv in
  let limit := JS.default (JS.assoc "limit" kv) (JNum 100) in
  try_catch
    (response_data <- await (primary_call cfg tableName limit) ;;
     count_summary tableName response_data)
    (fun error =>
       try_catch
         (response_data <- await (alternative_call cfg tableName limit) ;;
          count_summary tableName response_data)
         (fun alternativeError =>
            Throw (Error ("Failed to query table by name: " ++ message error
                          ++ ". Alternative approach also failed: "
                          ++ message alternativeError)))).
Proof. reflexivity. Qed.

(** C3.  When the primary request is rejected with message [A] and the
    alternative request with message [B], query_table_by_name throws one
    error whose message holds [A] and then [B]; both requests were made,
    in that order, and the tool call answers with one error envelope
    carrying that message. *)
Theorem queryTableByName_combined_failure :
  forall (cfg : Config) (kv : list (string * json)) (srv : remote) (A B : string),
    let tableName := JS.assoc "tableName" kv in
    let limit := JS.default (JS.assoc "limit" kv) (JNum 100) in
    let c1 := primary_call cfg tableName limit in
    let c2 := alternative_call cfg tableName limit in
    let msg := "Failed to query table by name: " ++ A
               ++ ". Alternative approach also failed: " ++ B in
    srv [] c1 = Rejected A ->
    srv [(c1, Rejected A)] c2 = Rejected B ->
    exec (queryTableByName cfg (Some (JObj kv))) srv =
      (Threw (Error msg), [(c1, Rejected A); (c2, Rejected B)])
    /\ exec (callTool cfg {| name := "query_table_by_name"; arguments := Some kv |}) srv =
      (Returned (error_result ("Error: " ++ msg)), [(c1, Rejected A); (c2, Rejected B)]).
Proof.
  intros cfg kv srv A B tableName limit c1 c2 msg H1 H2.
  assert (E : exec (queryTableByName cfg (Some (JObj kv))) srv =
              (Threw (Error msg), [(c1, Rejected A); (c2, Rejected B)])).
  { unfold exec. rewrite queryTableByName_unfold. cbv zeta.
    fold tableName limit c1 c2.
    rewrite run_try_catch, run_bind, run_await, H1.
    rewrite run_try_catch, run_bind, run_await. simpl app. rewrite H2.
    reflexivity. }
  split; [exact E|].
  rewrite exec_callTool. cbn [name arguments].
  change (tool_switch cfg "query_table_by_name" (Some (JObj kv)))
    with (queryTableByName cfg (Some (JObj kv))).
  rewrite E. reflexivity.
Qed.

Lemma queryTableByName_combined_failure_witness :
  exec (queryTableByName bare_config (Some (JObj [("tableName", JStr "m1thx9m7x7e5nds")])))
       (scripted [Rejected "A"; Rejected "B"]) =
    (Threw (Error "Failed to query table by name: A. Alternative approach also failed: B"),
     [(primary_call bare_config (Some (JStr "m1thx9m7x7e5nds")) (JNum 100), Rejected "A");
      (alternative_call bare_config (Some (JStr "m1thx9m7x7e5nds")) (JNum 100), Rejected "B")])
  /\ exec (callTool bare_config
             {| name := "query_table_by_name";
                arguments := Some [("tableName", JStr "m1thx9m7x7e5nds")] |})
          (scripted [Rejected "A"; Rejected "B"]) =
    (Returned (error_result
                 "Error: Failed to query table by name: A. Alternative approach also failed: B"),
     [(primary_call bare_config (Some (JStr "m1thx9m7x7e5nds")) (JNum 100), Rejected "A");
      (alternative_call bare_config (Some (JStr "m1thx9m7x7e5nds")) (JNum 100), Rejected "B")]).
Proof.
  apply (queryTableByName_combined_failure bare_config
           [("tableName", JStr "m1thx9m7x7e5nds")]
           (scripted [Rejected "A"; Rejected "B"]) "A" "B"); reflexivity.
Defined.

(** C8, as worded, fails when the alternative request is fulfilled
    with the body [null]: the extraction throws inside the inner [try],
    and the handler ends in the combined error, which the tool call
    answers with an error-flagged result. *)
Lemma queryTableByName_fallback_null_body :
  let srv := scripted [Rejected "A"; Resolved JNull] in
  let c1 := primary_call bare_config (Some (JStr "Tasks")) (JNum 100) in
  let c2 := alternative_call bare_config (Some (JStr "Tasks")) (JNum 100) in
  srv [] c1 = Rejected "A"
  /\ srv [(c1, Rejected "A")] c2 = Resolved JNull
  /\ exec (queryTableByName bare_config (Some (JObj [("tableName", JStr "Tasks")]))) srv =
     (Threw (Error ("Failed to query table by name: A. Alternative approach also failed: "
                    ++ "Cannot read properties of null (reading 'list')")),
      [(c1, Rejected "A"); (c2, Resolved JNull)])
  /\ (forall result,
        fst (exec (queryTableByName bare_config
                     (Some (JObj [("tableName", JStr "Tasks")]))) srv) <> Returned result)
  /\ isError (match fst (exec (callTool bare_config
                                 {| name := "query_table_by_name";
                                    arguments := Some [("tableName", JStr "Tasks")] |}) srv)
              with
              | Returned result => result
              | Threw _ => text_result EmptyString
              end) = Some true.
Proof.
  cbv zeta. repeat split; try reflexivity.
  intros result. vm_compute. discriminate.
Qed.

(** C8, amended.  When the primary request is rejected and the
    alternative request is fulfilled, both requests are made, in that
    order, and no other.  With a body that is not [null]
    query_table_by_name returns the summary extracted from that body,
    the very envelope a fulfilled primary request with the same body
    gives; it throws nothing, and the tool call relays the envelope
    with no error flag.  With the body [null] the extraction throws and
    the handler ends in the combined error, the message of the primary
    rejection first. *)
Theorem queryTableByName_fallback_success :
  forall (cfg : Config) (kv : list (string * json)) (srv : remote) (A : string) (d : json),
    let tableName := JS.assoc "tableName" kv in
    let limit := JS.default (JS.assoc "limit" kv) (JNum 100) in
    let c1 := primary_call cfg tableName limit in
    let c2 := alternative_call cfg tableName limit in
    let result := text_result (summary_text tableName (totalCount d) (recordCount d)) in
    srv [] c1 = Rejected A ->
    srv [(c1, Rejected A)] c2 = Resolved d ->
    snd (exec (queryTableByName cfg (Some (JObj kv))) srv) =
      [(c1, Rejected A); (c2, Resolved d)]
    /\ (d <> JNull ->
        exec (queryTableByName cfg (Some (JObj kv))) srv =
          (Returned result, [(c1, Rejected A); (c2, Resolved d)])
        /\ (forall srv', srv' [] c1 = Resolved d ->
              exec (queryTableByName cfg (Some (JObj kv))) srv' =
                (Returned result, [(c1, Resolved d)]))
        /\ exec (callTool cfg {| name := "query_table_by_name"; arguments := Some kv |}) srv =
          (Returned result, [(c1, Rejected A); (c2, Resolved d)])
        /\ isError result = None)
    /\ (d = JNull ->
        exists m,
          exec (queryTableByName cfg (Some (JObj kv))) srv =
            (Threw (Error ("Failed to query table by name: " ++ A
                           ++ ". Alternative approach also failed: " ++ m)),
             [(c1, Rejected A); (c2, Resolved d)])
          /\ exec (callTool cfg {| name := "query_table_by_name"; arguments := Some kv |}) srv =
            (Returned (error_result ("Error: Failed to query table by name: " ++ A
                                     ++ ". Alternative approach also failed: " ++ m)),
             [(c1, Rejected A); (c2, Resolved d)])).
Proof.
  intros cfg kv srv A d tableName limit c1 c2 result H1 H2.
  assert (Hrun : exec (queryTableByName cfg (Some (JObj kv))) srv =
                 match run (count_summary tableName d) srv
                         [(c1, Rejected A); (c2, Resolved d)] with
                 | (Returned a, log) => (Returned a, log)
                 | (Threw e, log) =>
                     (Threw (Error ("Failed to query table by name: " ++ A
                                    ++ ". Alternative approach also failed: "
                                    ++ message e)), log)
                 end).
  { unfold exec. rewrite queryTableByName_unfold. cbv zeta.
    fold tableName limit c1 c2.
    rewrite run_try_catch, run_bind, run_await, H1.
    rewrite run_try_catch, run_bind, run_await. simpl app. rewrite H2.
    destruct (run (count_summary tableName d) srv _) as [[a | e] log]; reflexivity. }
  assert (Htool : exec (callTool cfg {| name := "query_table_by_name";
                                        arguments := Some kv |}) srv =
                  match exec (queryTableByName cfg (Some (JObj kv))) srv with
                  | (Returned a, log) => (Returned a, log)
                  | (Threw (Error m), log) => (Returned (error_result ("Error: " ++ m)), log)
                  | (Threw (McpError c m), log) => (Threw (McpError c m), log)
                  end).
  { rewrite exec_callTool. reflexivity. }
  split; [|split].
  - rewrite Hrun.
    pose proof (run_count_summary tableName d srv [(c1, Rejected A); (c2, Resolved d)]) as Hlog.
    destruct (run (count_summary tableName d) srv _) as [[a | e] log];
      cbn [snd] in *; exact Hlog.
  - intros Hd.
    assert (E : exec (queryTableByName cfg (Some (JObj kv))) srv =
                (Returned result, [(c1, Rejected A); (c2, Resolved d)])).
    { rewrite Hrun, count_summary_nonnull by exact Hd. reflexivity. }
    split; [exact E|]. split; [|split; [|reflexivity]].
    + intros srv' H1'. unfold exec. rewrite queryTableByName_unfold. cbv zeta.
      fold tableName limit c1 c2.
      rewrite run_try_catch, run_bind, run_await, H1'.
      rewrite count_summary_nonnull by exact Hd. reflexivity.
    + rewrite Htool, E. reflexivity.
  - intros ->. eexists. split.
    + rewrite Hrun. reflexivity.
    + rewrite Htool, Hrun. reflexivity.
Qed.

Lemma queryTableByName_fallback_success_witness :
  exec (queryTableByName bare_config (Some (JObj [("tableName", JStr "Tasks")])))
       (scripted [Rejected "Request failed with status code 404";
                  Resolved (JObj [("list", JArr [JObj []; JObj []]);
                                  ("pageInfo", JObj [("totalRows", JNum 40)])])]) =
    (Returned (text_result "Table Tasks contains 40 total records. Retrieved 2 records."),
     [(primary_call bare_config (Some (JStr "Tasks")) (JNum 100),
       Rejected "Request failed with status code 404");
      (alternative_call bare_config (Some (JStr "Tasks")) (JNum 100),
       Resolved (JObj [("list", JArr [JObj []; JObj []]);
                       ("pageInfo", JObj [("totalRows", JNum 40)])]))]).
Proof.
  destruct (queryTableByName_fallback_success bare_config [("tableName", JStr "Tasks")]
              (scripted [Rejected "Request failed with status code 404";
                         Resolved (JObj [("list", JArr [JObj []; JObj []]);
                                         ("pageInfo", JObj [("totalRows", JNum 40)])])])
              "Request failed with status code 404"
              (JObj [("list", JArr [JObj []; JObj []]);
                     ("pageInfo", JObj [("totalRows", JNum 40)])]))
    as [_ [H _]]; [reflexivity | reflexivity |].
  destruct H as [E _]; [discriminate | exact E].
Defined.

(** C2.  The code departs from the claim where the response has a
    [pageInfo] without [totalRows].  The handler falls back to the
    length of the list when there is no [pageInfo], but it tests
    [pageInfo] and not the field: here the total-row count field is
    absent, the claim gives the length of the list, 2, and the text of
    the code reads [undefined]. *)
Lemma queryTableByName_pageInfo_without_totalRows :
  let d := JObj [("list", JArr [JObj []; JObj []]); ("pageInfo", JObj [])] in
  let r := exec (queryTableByName bare_config (Some (JObj [("tableName", JStr "Tasks")])))
                (always (Resolved d)) in
  total_rows_field d = None
  /\ specified_summary (Some (JStr "Tasks")) d =
       "Table Tasks contains 2 total records. Retrieved 2 records."
  /\ fst r = Returned (text_result
                         "Table Tasks contains undefined total records. Retrieved 2 records.")
  /\ fst r <> Returned (text_result (specified_summary (Some (JStr "Tasks")) d)).
Proof.
  cbv zeta. repeat split; try reflexivity.
  vm_compute. discriminate.
Qed.

Lemma specified_counts (d : json) :
  (JS.prop d "list" = None \/ exists l, JS.prop d "list" = Some (JArr l)) ->
  (JS.truthy (JS.prop d "pageInfo") = true -> total_rows_field d <> None) ->
  recordCount d = Some (returned_list_length d)
  /\ totalCount d = Some (specified_total d).
Proof.
  intros Hlist Hpage.
  assert (Hrc : recordCount d = Some (returned_list_length d)).
  { unfold recordCount, returned_list_length.
    destruct Hlist as [-> | [l ->]]; reflexivity. }
  split; [exact Hrc|].
  unfold totalCount, specified_total. rewrite Hrc.
  unfold total_rows_field in *.
  destruct (JS.truthy (JS.prop d "pageInfo")) eqn:Ep.
  - destruct (JS.get (JS.prop d "pageInfo") "totalRows") as [t|] eqn:Et.
    + reflexivity.
    + exfalso. now apply Hpage.
  - destruct (JS.prop d "pageInfo") as [[| b | n | s | l | kv] |]; simpl in *;
      try reflexivity; discriminate Ep.
Qed.

(** X22.  When the primary request is fulfilled with a body
    that is not [null], whose [list] is absent or an array and whose
    [pageInfo], if it is there, carries [totalRows], the text reports
    [totalRows] when the response has it and the length of the list
    otherwise (0 for an absent list); one request is made, the primary
    one, and the alternative endpoint is not called. *)
Theorem queryTableByName_primary_success :
  forall (cfg : Config) (kv : list (string * json)) (srv : remote) (d : json),
    let tableName := JS.assoc "tableName" kv in
    let limit := JS.default (JS.assoc "limit" kv) (JNum 100) in
    let c1 := primary_call cfg tableName limit in
    srv [] c1 = Resolved d ->
    d <> JNull ->
    (JS.prop d "list" = None \/ exists l, JS.prop d "list" = Some (JArr l)) ->
    (JS.truthy (JS.prop d "pageInfo") = true -> total_rows_field d <> None) ->
    exec (queryTableByName cfg (Some (JObj kv))) srv =
      (Returned (text_result (specified_summary tableName d)), [(c1, Resolved d)])
    /\ ~ In (alternative_call cfg tableName limit)
            (calls (snd (exec (queryTableByName cfg (Some (JObj kv))) srv))).
Proof.
  intros cfg kv srv d tableName limit c1 H1 Hd Hlist Hpage.
  assert (E : exec (queryTableByName cfg (Some (JObj kv))) srv =
              (Returned (text_result (specified_summary tableName d)), [(c1, Resolved d)])).
  { unfold exec. rewrite queryTableByName_unfold. cbv zeta.
    fold tableName limit c1.
    rewrite run_try_catch, run_bind, run_await, H1.
    rewrite count_summary_nonnull by exact Hd.
    destruct (specified_counts d Hlist Hpage) as [-> ->]. reflexivity. }
  split; [exact E|].
  rewrite E. simpl. intros [H | []].
  unfold c1, primary_call, alternative_call, get_with in H.
  injection H as _ Hps. discriminate Hps.
Qed.

Lemma queryTableByName_primary_success_witness :
  exec (queryTableByName bare_config (Some (JObj [("tableName", JStr "Tasks")])))
       (always (Resolved (JObj [("list", JArr [JObj []; JObj []; JObj []])]))) =
    (Returned (text_result "Table Tasks contains 3 total records. Retrieved 3 records."),
     [(primary_call bare_config (Some (JStr "Tasks")) (JNum 100),
       Resolved (JObj [("list", JArr [JObj []; JObj []; JObj []])]))]).
Proof.
  apply (queryTableByName_primary_success bare_config [("tableName", JStr "Tasks")]
           (always (Resolved (JObj [("list", JArr [JObj []; JObj []; JObj []])])))
           (JObj [("list", JArr [JObj []; JObj []; JObj []])]));
    [reflexivity | discriminate | right; eexists; reflexivity | discriminate].
Defined.

(** The same run with a total reported by the remote service. *)
Example queryTableByName_reports_totalRows :
  fst (exec (queryTableByName bare_config (Some (JObj [("tableName", JStr "Tasks")])))
         (always (Resolved (JObj [("list", JArr [JObj []]);
                                  ("pageInfo", JObj [("totalRows", JNum 250)])])))) =
  Returned (text_result "Table Tasks contains 250 total records. Retrieved 1 records.").
Proof. reflexivity. Qed.

(* ================================================================= *)
(** ** query_table *)

Lemma own_keys_object (fs : list (string * json)) :
  Nat.ltb 0 (List.length (JS.own_keys (JObj fs))) =
  match fs with [] => false | _ :: _ => true end.
Proof.
  destruct fs; reflexivity.
Qed.

(** C5.  For a [filters] argument that is absent or an object,
    query_table issues a single GET on the records path whose query
    parameters are [limit] and [offset], followed by [where] exactly
    when the filter object has a property, and [where] is then the
    JSON text of the filter object; [limit] is 100 and [offset] is 0
    when the argument is absent. *)
Theorem queryTable_query_parameters :
  forall (kv : list (string * json)) (fs : list (string * json)) (srv : remote),
    let projectId := JS.assoc "projectId" kv in
    let tableName := JS.assoc "tableName" kv in
    let limit := JS.default (JS.assoc "limit" kv) (JNum 100) in
    let offset := JS.default (JS.assoc "offset" kv) (JNum 0) in
    let queryParams :=
      ([("limit", Some limit); ("offset", Some offset)]
       ++ match fs with
          | [] => []
          | _ :: _ => [("where", Some (JStr (JS.stringify (JObj fs))))]
          end)%list in
    let c := get_with ("/api/v1/db/data/noco/" ++ JS.tpl projectId ++ "/" ++ JS.tpl tableName)
               queryParams in
    (JS.assoc "filters" kv = None /\ fs = [] \/ JS.assoc "filters" kv = Some (JObj fs)) ->
    calls (snd (exec (queryTable (Some (JObj kv))) srv)) = [c]
    /\ method c = GET
    /\ (fs = [] -> JS.assoc "where" queryParams = None)
    /\ (fs <> [] ->
        JS.assoc "where" queryParams = Some (Some (JStr (JS.stringify (JObj fs)))))
    /\ (JS.assoc "limit" kv = None -> JS.assoc "limit" queryParams = Some (Some (JNum 100)))
    /\ (JS.assoc "offset" kv = None -> JS.assoc "offset" queryParams = Some (Some (JNum 0))).
Proof.
  intros kv fs srv projectId tableName limit offset queryParams c Hf.
  assert (Hfilters : JS.default (JS.assoc "filters" kv) (JObj []) = JObj fs).
  { destruct Hf as [[-> ->] | ->]; reflexivity. }
  split; [|split; [reflexivity|]].
  - unfold exec, queryTable. cbn [destructure bind JS.prop].
    rewrite Hfilters. rewrite run_wrapped.
    cbn [Object_keys bind]. rewrite own_keys_object.
    rewrite run_bind, run_await.
    fold projectId tableName limit offset.
    assert (Hq : ([("limit", Some limit); ("offset", Some offset)]
                  ++ (if match fs with [] => false | _ :: _ => true end
                      then [("where", Some (JStr (JS.stringify (JObj fs))))]
                      else []))%list = queryParams).
    { unfold queryParams. destruct fs; reflexivity. }
    rewrite Hq. fold c.
    destruct (srv [] c); reflexivity.
  - unfold queryParams. repeat split.
    + intros ->. reflexivity.
    + intros Hne. destruct fs; [contradiction | reflexivity].
    + intros H. unfold limit. rewrite H. reflexivity.
    + intros H. unfold offset. rewrite H. reflexivity.
Qed.

Lemma queryTable_query_parameters_witness :
  calls (snd (exec (queryTable (Some (JObj [("projectId", JStr "p1");
                                            ("tableName", JStr "Tasks");
                                            ("filters", JObj [("status", JStr "open")])])))
                   (always (Resolved (JObj [("list", JArr [])]))))) =
  [get_with "/api/v1/db/data/noco/p1/Tasks"
     [("limit", Some (JNum 100)); ("offset", Some (JNum 0));
      ("where", Some (JStr (JS.stringify (JObj [("status", JStr "open")]))))]].
Proof.
  destruct (queryTable_query_parameters
              [("projectId", JStr "p1"); ("tableName", JStr "Tasks");
               ("filters", JObj [("status", JStr "open")])]
              [("status", JStr "open")]
              (always (Resolved (JObj [("list", JArr [])])))) as [H _];
    [right; reflexivity | exact H].
Defined.

(** An empty filter object, and none at all, leave [where] out. *)
Example queryTable_empty_filters :
  calls (snd (exec (queryTable (Some (JObj [("projectId", JStr "p1");
                                            ("tableName", JStr "Tasks");
                                            ("filters", JObj []);
                                            ("limit", JNum 5)])))
                   (always (Resolved (JObj []))))) =
  [get_with "/api/v1/db/data/noco/p1/Tasks"
     [("limit", Some (JNum 5)); ("offset", Some (JNum 0))]].
Proof. reflexivity. Qed.

(* ================================================================= *)
(** ** create_table *)

Lemma calls_snoc (log : list event) (c : call) (r : http_result) :
  calls (log ++ [(c, r)]) = (calls log ++ [c])%list.
Proof.
  unfold calls. rewrite map_app. reflexivity.
Qed.

Lemma add_column_nonnull (tableId : option json) (column : json) :
  column <> JNull ->
  add_column tableId column = (await (column_call tableId column) ;; Ret tt).
Proof.
  intros H. unfold add_column. rewrite !member_nonnull by exact H. reflexivity.
Qed.

(** Under a client that fulfils every request the loop adds the
    columns one by one, in the order of the list. *)
Lemma run_add_columns (tableId : option json) (srv : remote) (columns : list json) :
  fulfils_all srv ->
  Forall (fun column => column <> JNull) columns ->
  forall log, exists log',
    run (add_columns tableId columns) srv log = (Returned tt, log')
    /\ calls log' = (calls log ++ map (column_call tableId) columns)%list.
Proof.
  intros Hsrv Hcols. induction Hcols as [| column rest Hc _ IH]; intros log.
  - exists log. split; [reflexivity|]. simpl. now rewrite app_nil_r.
  - cbn [add_columns]. rewrite run_bind, add_column_nonnull by exact Hc.
    rewrite run_bind, run_await.
    destruct (Hsrv log (column_call tableId column)) as [d Hd]. rewrite Hd.
    cbn [run].
    destruct (IH (log ++ [(column_call tableId column, Resolved d)])%list) as [log' [Hrun Hcalls]].
    exists log'. split; [exact Hrun|].
    rewrite Hcalls, calls_snoc, <- app_assoc. reflexivity.
Qed.

Lemma column_body_pk (column_name column_type is_primary : option json) :
  JS.assoc "pk" (column_body column_name column_type is_primary) =
  if JS.truthy is_primary then Some (Some (JBool true)) else None.
Proof.
  unfold column_body. destruct (JS.truthy is_primary); reflexivity.
Qed.

(** C6, as worded, fails in two places.  The 1 + N requests are only
    made when the remote service fulfils them: with two columns and the
    first column refused, two requests go out, not three.  And the
    handler tests [is_primary] for truthiness: an entry with
    [is_primary] 1, which is not [true], still gets [pk: true]. *)
Lemma createTable_fewer_requests_and_truthy_pk :
  let columns := [JObj [("column_name", JStr "a"); ("is_primary", JNum 1)];
                  JObj [("column_name", JStr "b")]] in
  let r := exec (createTable
                   (Some (JObj [("projectId", JStr "p1"); ("tableName", JStr "Tasks");
                                ("columns", JArr columns)])))
                (scripted [Resolved (JObj [("id", JStr "tbl9")]); Rejected "Bad Request"]) in
  List.length (calls (snd r)) = 2
  /\ List.length (calls (snd r)) <> 1 + List.length columns
  /\ fst r = Threw (Error "Failed to create table: Bad Request")
  /\ JS.prop (JObj [("column_name", JStr "a"); ("is_primary", JNum 1)]) "is_primary"
     <> Some (JBool true)
  /\ nth_error (calls (snd r)) 1 =
     Some (post "/api/v1/db/meta/tables/tbl9/columns"
             (Some (Fields [("column_name", Some (JStr "a")); ("title", Some (JStr "a"));
                            ("uidt", None); ("pk", Some (JBool true))]))).
Proof.
  cbv zeta. repeat split; try reflexivity; discriminate.
Qed.

(** C6, amended.  With a [columns] array of N entries, none of them
    [null], and a remote service that fulfils every request (the first
    with a body that is not [null]), create_table issues exactly 1 + N
    requests: the POST that creates the table, then one column-add POST
    per entry, in the order of the array, on the table whose [id] the
    first response gave.  The body of a column-add request has
    [pk: true] exactly when [is_primary] of the entry is truthy: when
    it is [true], and likewise for a number other than 0 or a string
    that is not empty; it has no [pk] when [is_primary] is [false],
    otherwise falsy, or absent. *)
Theorem createTable_requests :
  forall (kv : list (string * json)) (columns : list json) (srv : remote) (d : json),
    let projectId := JS.assoc "projectId" kv in
    let tableName := JS.assoc "tableName" kv in
    let tableId := JS.prop d "id" in
    JS.assoc "columns" kv = Some (JArr columns) ->
    Forall (fun column => column <> JNull) columns ->
    fulfils_all srv ->
    srv [] (table_call projectId tableName) = Resolved d ->
    d <> JNull ->
    let r := exec (createTable (Some (JObj kv))) srv in
    fst r = Returned (text_result ("Table '" ++ JS.tpl tableName
                                   ++ "' created successfully with "
                                   ++ JS.dec (Z.of_nat (List.length columns)) ++ " columns."))
    /\ calls (snd r) = table_call projectId tableName :: map (column_call tableId) columns
    /\ List.length (calls (snd r)) = 1 + List.length columns
    /\ (forall column, In column columns ->
          (JS.prop column "is_primary" = Some (JBool true) ->
             exists fs, data (column_call tableId column) = Some (Fields fs)
                        /\ JS.assoc "pk" fs = Some (Some (JBool true)))
          /\ (JS.prop column "is_primary" = Some (JBool false)
              \/ JS.prop column "is_primary" = None ->
             exists fs, data (column_call tableId column) = Some (Fields fs)
                        /\ JS.assoc "pk" fs = None))
    /\ (forall column, In column columns ->
          exists fs, data (column_call tableId column) = Some (Fields fs)
                     /\ JS.assoc "pk" fs =
                        if JS.truthy (JS.prop column "is_primary")
                        then Some (Some (JBool true)) else None).
Proof.
  intros kv columns srv d projectId tableName tableId Hcols Hnn Hsrv Hd Hdn r.
  destruct (run_add_columns tableId srv columns Hsrv Hnn
              [(table_call projectId tableName, Resolved d)]) as [log' [Hrun Hcalls]].
  assert (E : r = (Returned (text_result ("Table '" ++ JS.tpl tableName
                                          ++ "' created successfully with "
                                          ++ JS.dec (Z.of_nat (List.length columns))
                                          ++ " columns.")), log')).
  { unfold r, exec, createTable. cbn [destructure bind JS.prop].
    fold projectId tableName. rewrite Hcols.
    rewrite run_wrapped, run_bind, run_await.
    fold (table_call projectId tableName). rewrite Hd.
    rewrite member_nonnull by exact Hdn. cbn [bind iterate app].
    fold tableId. rewrite run_bind, Hrun. reflexivity. }
  rewrite E. cbn [fst snd]. split; [reflexivity|].
  assert (Hc : calls log' = table_call projectId tableName :: map (column_call tableId) columns).
  { rewrite Hcalls. reflexivity. }
  split; [exact Hc|]. split; [|split].
  - rewrite Hc. simpl. now rewrite length_map.
  - intros column _. split; intros Hp; eexists; (split; [reflexivity|]);
      rewrite column_body_pk.
    + rewrite Hp. reflexivity.
    + destruct Hp as [-> | ->]; reflexivity.
  - intros column _. eexists. split; [reflexivity|]. apply column_body_pk.
Qed.

Lemma createTable_requests_witness :
  calls (snd (exec (createTable
                      (Some (JObj [("projectId", JStr "p1"); ("tableName", JStr "Tasks");
                                   ("columns",
                                    JArr [JObj [("column_name", JStr "id");
                                                ("column_type", JStr "Number");
                                                ("is_primary", JBool true)];
                                          JObj [("column_name", JStr "title");
                                                ("column_type", JStr "SingleLineText")]])])))
                   (always (Resolved (JObj [("id", JStr "tbl9")]))))) =
  [post "/api/v1/db/meta/projects/p1/tables" (Some (Fields [("table_name", Some (JStr "Tasks"))]));
   post "/api/v1/db/meta/tables/tbl9/columns"
     (Some (Fields [("column_name", Some (JStr "id")); ("title", Some (JStr "id"));
                    ("uidt", Some (JStr "Number")); ("pk", Some (JBool true))]));
   post "/api/v1/db/meta/tables/tbl9/columns"
     (Some (Fields [("column_name", Some (JStr "title")); ("title", Some (JStr "title"));
                    ("uidt", Some (JStr "SingleLineText"))]))].
Proof.
  destruct (createTable_requests
              [("projectId", JStr "p1"); ("tableName", JStr "Tasks");
               ("columns",
                JArr [JObj [("column_name", JStr "id"); ("column_type", JStr "Number");
                            ("is_primary", JBool true)];
                      JObj [("column_name", JStr "title");
                            ("column_type", JStr "SingleLineText")]])]
              [JObj [("column_name", JStr "id"); ("column_type", JStr "Number");
                     ("is_primary", JBool true)];
               JObj [("column_name", JStr "title"); ("column_type", JStr "SingleLineText")]]
              (always (Resolved (JObj [("id", JStr "tbl9")])))
              (JObj [("id", JStr "tbl9")])) as [_ [H _]].
  - reflexivity.
  - repeat constructor; discriminate.
  - intros log c. eexists. reflexivity.
  - reflexivity.
  - discriminate.
  - exact H.
Defined.

(** Without a success of the remote service the sequence stops short:
    the second column is never asked for once the first is refused. *)
Example createTable_stops_at_rejection :
  exec (createTable
          (Some (JObj [("projectId", JStr "p1"); ("tableName", JStr "Tasks");
                       ("columns", JArr [JObj [("column_name", JStr "a")];
                                         JObj [("column_name", JStr "b")]])])))
       (scripted [Resolved (JObj [("id", JStr "tbl9")]); Rejected "Bad Request"]) =
  (Threw (Error "Failed to create table: Bad Request"),
   [(post "/api/v1/db/meta/projects/p1/tables"
       (Some (Fields [("table_name", Some (JStr "Tasks"))])),
     Resolved (JObj [("id", JStr "tbl9")]));
    (post "/api/v1/db/meta/tables/tbl9/columns"
       (Some (Fields [("column_name", Some (JStr "a")); ("title", Some (JStr "a"));
                      ("uidt", None)])),
     Rejected "Bad Request")]).
Proof. reflexivity. Qed.

(* ================================================================= *)
(** ** Remote failures *)

Lemma fail_fast_ret {A : Type} (a : A) : fail_fast (Ret a).
Proof. intros srv log c m H. left. exact H. Qed.

Lemma fail_fast_throw {A : Type} (e : exn) : fail_fast (@Throw A e).
Proof. intros srv log c m H. left. exact H. Qed.

Lemma fail_fast_await (c : call) : fail_fast (await c).
Proof.
  intros srv log c' m H. rewrite run_await in *. cbn [fst snd] in *.
  apply in_app_or in H. destruct H as [H | [H | []]]; [left; exact H|].
  right. injection H as _ Hr. rewrite Hr. reflexivity.
Qed.

Lemma fail_fast_bind {A B : Type} (p : prog A) (f : A -> prog B) :
  fail_fast p -> (forall a, fail_fast (f a)) -> fail_fast (bind p f).
Proof.
  intros Hp Hf srv log c m H. rewrite run_bind in *.
  specialize (Hp srv log c m).
  destruct (run p srv log) as [[a | e] log'] eqn:E; cbn [fst snd] in *.
  - destruct (Hf a srv log' c m H) as [Hin | Hthrow]; [|right; exact Hthrow].
    destruct (Hp Hin) as [Hlog | Habs]; [left; exact Hlog | discriminate Habs].
  - destruct (Hp H) as [Hlog | Hthrow]; [left; exact Hlog|].
    right. injection Hthrow as ->. reflexivity.
Qed.

Lemma fail_fast_member (v : option json) (k : string) : fail_fast (member v k).
Proof.
  destruct v as [[] |]; first [apply fail_fast_ret | apply fail_fast_throw].
Qed.

Lemma fail_fast_iterate (v : option json) (what : string) : fail_fast (iterate v what).
Proof.
  destruct v as [[] |]; first [apply fail_fast_ret | apply fail_fast_throw].
Qed.

Lemma fail_fast_Object_keys (v : json) : fail_fast (Object_keys v).
Proof.
  destruct v; first [apply fail_fast_ret | apply fail_fast_throw].
Qed.

Create HintDb fail_fast.
#[local] Hint Resolve fail_fast_ret fail_fast_throw fail_fast_await fail_fast_member
  fail_fast_iterate fail_fast_Object_keys : fail_fast.

Ltac fail_fast_steps :=
  repeat (apply fail_fast_bind; [ | intros ? ]); auto with fail_fast.

Lemma fail_fast_add_columns (tableId : option json) (columns : list json) :
  fail_fast (add_columns tableId columns).
Proof.
  induction columns as [| column rest IH]; cbn [add_columns].
  - apply fail_fast_ret.
  - apply fail_fast_bind; [|intros _; exact IH].
    unfold add_column. fail_fast_steps.
Qed.

#[local] Hint Resolve fail_fast_add_columns : fail_fast.

(** Each handler but query_table_by_name is one [try] around a body
    that stops at the first rejection, with a [catch] that rethrows
    under the prefix of the tool. *)
Lemma handler_shape (cfg : Config) (toolName : string) (kv : list (string * json)) :
  In toolName operations ->
  toolName <> "query_table_by_name" ->
  exists body,
    tool_switch cfg toolName (Some (JObj kv)) =
      try_catch body
        (fun error => Throw (Error (failure_prefix toolName ++ message error)))
    /\ fail_fast body.
Proof.
  intros Hin Hne. simpl in Hin.
  destruct Hin as [<- | [<- | [<- | [<- | [<- | [<- | [<- | [<- | [<- | []]]]]]]]]];
    try congruence;
    (eexists; split; [reflexivity | fail_fast_steps]).
Qed.

(** A tool the server knows ends in an envelope or in an [Error] under
    the prefix of the tool, never in an [McpError]. *)
Lemma known_tool_outcome (cfg : Config) (toolName : string) (kv : list (string * json))
      (srv : remote) :
  In toolName operations ->
  (exists result, fst (exec (tool_switch cfg toolName (Some (JObj kv))) srv) = Returned result)
  \/ (exists m, fst (exec (tool_switch cfg toolName (Some (JObj kv))) srv) =
                Threw (Error (failure_prefix toolName ++ m))).
Proof.
  intros Hin.
  destruct (String.eqb_spec toolName "query_table_by_name") as [-> | Hne].
  - change (tool_switch cfg "query_table_by_name" (Some (JObj kv)))
      with (queryTableByName cfg (Some (JObj kv))).
    unfold exec. rewrite queryTableByName_unfold. cbv zeta.
    rewrite run_try_catch.
    destruct (run _ srv []) as [[a | e] log]; [left; eexists; reflexivity|].
    rewrite run_try_catch.
    destruct (run _ srv log) as [[a | e'] log']; [left; eexists; reflexivity|].
    right. eexists. reflexivity.
  - destruct (handler_shape cfg toolName kv Hin Hne) as [body [-> _]].
    unfold exec. rewrite run_wrapped.
    destruct (run body srv []) as [[a | e] log]; [left | right]; eexists; reflexivity.
Qed.

(** C4, as worded, fails: the handler does not turn the rejection into
    a result, it throws. *)
Lemma listProjects_rethrows :
  fst (exec listProjects (always (Rejected "Network Error"))) =
    Threw (Error "Failed to list projects: Network Error")
  /\ (forall result,
        fst (exec listProjects (always (Rejected "Network Error"))) <> Returned result).
Proof.
  split; [reflexivity|]. intros result. vm_compute. discriminate.
Qed.

(** C4, amended.  In every handler but query_table_by_name a rejected
    request makes the handler throw an [Error] whose message is the
    prefix of the tool followed by the message of the rejection; the
    [catch] of the tool-call handler turns it into an error-flagged
    result carrying that message.  A tool call throws to its caller
    exactly when the tool name is unknown. *)
Theorem remote_failure_becomes_error_result :
  forall (cfg : Config) (srv : remote),
    (forall (toolName : string) (kv : list (string * json)) (c : call) (m : string),
        In toolName operations ->
        toolName <> "query_table_by_name" ->
        In (c, Rejected m) (snd (exec (tool_switch cfg toolName (Some (JObj kv))) srv)) ->
        fst (exec (tool_switch cfg toolName (Some (JObj kv))) srv) =
          Threw (Error (failure_prefix toolName ++ m))
        /\ fst (exec (callTool cfg {| name := toolName; arguments := Some kv |}) srv) =
          Returned (error_result ("Error: " ++ failure_prefix toolName ++ m)))
    /\ (forall request : CallToolRequest,
          (exists e, fst (exec (callTool cfg request) srv) = Threw e)
          <-> ~ In (name request) operations).
Proof.
  intros cfg srv. split.
  - intros toolName kv c m Hin Hne Hev.
    assert (E : fst (exec (tool_switch cfg toolName (Some (JObj kv))) srv) =
                Threw (Error (failure_prefix toolName ++ m))).
    { destruct (handler_shape cfg toolName kv Hin Hne) as [body [Hshape Hff]].
      rewrite Hshape in *. unfold exec in *. rewrite run_wrapped in *.
      specialize (Hff srv [] c m).
      destruct (run body srv []) as [[a | e] log]; cbn [fst snd] in *;
        destruct (Hff Hev) as [[] | Hthrow]; [discriminate Hthrow|].
      injection Hthrow as ->. reflexivity. }
    split; [exact E|].
    rewrite exec_callTool. cbn [name arguments].
    destruct (exec (tool_switch cfg toolName (Some (JObj kv))) srv) as [o log].
    cbn [fst] in E. rewrite E. reflexivity.
  - intros request. split.
    + intros [e He] Hin.
      rewrite exec_callTool in He.
      destruct (known_tool_outcome cfg (name request)
                  (match arguments request with Some kv => kv | None => [] end)
                  srv Hin) as [[result Hr] | [m Hm]];
        destruct (exec (tool_switch cfg (name request) _) srv) as [o log];
        cbn [fst] in *; subst o; discriminate He.
    + intros Hnot. exists (McpError MethodNotFound ("Unknown tool: " ++ name request)).
      rewrite exec_callTool, tool_switch_unknown by exact Hnot. reflexivity.
Qed.

Lemma remote_failure_becomes_error_result_witness :
  fst (exec (callTool bare_config
               {| name := "insert_record";
                  arguments := Some [("projectId", JStr "p1"); ("tableName", JStr "Tasks");
                                     ("data", JObj [("title", JStr "x")])] |})
            (always (Rejected "Network Error"))) =
  Returned (error_result "Error: Failed to insert record: Network Error").
Proof.
  destruct (remote_failure_becomes_error_result bare_config
              (always (Rejected "Network Error"))) as [H _].
  destruct (H "insert_record"
              [("projectId", JStr "p1"); ("tableName", JStr "Tasks");
               ("data", JObj [("title", JStr "x")])]
              (post "/api/v1/db/data/noco/p1/Tasks" (Some (Value (JObj [("title", JStr "x")]))))
              "Network Error") as [_ E].
  - simpl. tauto.
  - discriminate.
  - left. reflexivity.
  - exact E.
Defined.

(** [executeCommand] has no such [catch]: there the error of the
    handler reaches the caller. *)
Example executeCommand_propagates :
  exec (executeCommand bare_config (JObj [("action", JStr "list_projects")]))
       (always (Rejected "Network Error")) =
  (Threw (Error "Failed to list projects: Network Error"),
   [(get "/api/v1/db/meta/projects", Rejected "Network Error")]).
Proof. reflexivity. Qed.

(* ================================================================= *)
(** ** Required arguments *)





(** What goes out when an argument is missing: a POST without a body
    for insert_record without [data], one request and then the failure
    of the loop for create_table without [columns]. *)
Example insertRecord_without_data :
  calls (snd (exec (insertRecord (Some (JObj [("projectId", JStr "p1");
                                              ("tableName", JStr "Tasks")])))
                   (always (Resolved (JObj []))))) =
  [post "/api/v1/db/data/noco/p1/Tasks" None].
Proof. reflexivity. Qed.

Example createTable_without_columns :
  exec (createTable (Some (JObj [("projectId", JStr "p1"); ("tableName", JStr "Tasks")])))
       (always (Resolved (JObj [("id", JStr "tbl9")]))) =
  (Threw (Error "Failed to create table: columns is not iterable"),
   [(post "/api/v1/db/meta/projects/p1/tables"
       (Some (Fields [("table_name", Some (JStr "Tasks"))])),
     Resolved (JObj [("id", JStr "tbl9")]))]).
Proof. reflexivity. Qed.

(* ================================================================= *)
(** ** Handlers of one request *)

(** X1.  list_projects, create_project, list_tables, insert_record,
    update_record and delete_record issue exactly one request, whatever
    the argument bag holds and however the remote service answers:
    nothing is retried and nothing is sent after a failure. *)
Theorem single_request_handlers :
  forall (cfg : Config) (toolName : string) (kv : list (string * json)) (srv : remote),
    In toolName single_request_tools ->
    List.length (snd (exec (tool_switch cfg toolName (Some (JObj kv))) srv)) = 1.
Proof.
  intros cfg toolName kv srv Hin. simpl in Hin.
  destruct Hin as [<- | [<- | [<- | [<- | [<- | [<- | []]]]]]];
    unfold exec, tool_switch;
    cbn [String.eqb Ascii.eqb Bool.eqb];
    unfold listProjects, createProject, listTables, insertRecord, updateRecord, deleteRecord;
    cbn [destructure bind];
    rewrite run_wrapped, run_bind, run_await;
    match goal with |- context [srv [] ?c] => destruct (srv [] c) end; reflexivity.
Qed.

Lemma single_request_handlers_witness :
  List.length (snd (exec (tool_switch bare_config "update_record"
                            (Some (JObj [("projectId", JStr "p1"); ("tableName", JStr "Tasks");
                                         ("recordId", JNum 3)])))
                         (always (Rejected "Request failed with status code 500")))) = 1.
Proof.
  apply (single_request_handlers bare_config "update_record"). simpl. tauto.
Defined.

(** X2.  create_project posts [title] as given and [description] with
    the empty string in its place when the argument is absent; a
    fulfilled request is answered with the confirmation followed by the
    JSON text of the response, a rejected one with the error of the
    handler. *)
Theorem createProject_request :
  forall (kv : list (string * json)) (srv : remote),
    let c := post "/api/v1/db/meta/projects"
               (Some (Fields [("title", JS.assoc "title" kv);
                              ("description",
                               Some (JS.default (JS.assoc "description" kv) (JStr EmptyString)))])) in
    exec (createProject (Some (JObj kv))) srv =
      (match srv [] c with
       | Resolved d =>
           Returned (text_result ("Project created successfully: " ++ JS.stringify2 d))
       | Rejected m => Threw (Error ("Failed to create project: " ++ m))
       end, [(c, srv [] c)])
    /\ (JS.assoc "description" kv = None ->
        data c = Some (Fields [("title", JS.assoc "title" kv);
                               ("description", Some (JStr EmptyString))])).
Proof.
  intros kv srv c. split.
  - unfold exec, createProject. cbn [destructure bind JS.prop].
    rewrite run_wrapped, run_bind, run_await. fold c.
    destruct (srv [] c); reflexivity.
  - intros H. unfold c. rewrite H. reflexivity.
Qed.

(** X3.  Calling update_record twice through the tool-call handler with
    the same arguments sends two PATCH requests, the same request
    twice, whatever the first one was answered: nothing is cached and
    nothing is deduplicated. *)
Theorem updateRecord_twice :
  forall (cfg : Config) (kv : list (string * json)) (srv : remote),
    let request := {| name := "update_record"; arguments := Some kv |} in
    let c := patch ("/api/v1/db/data/noco/" ++ JS.tpl (JS.assoc "projectId" kv) ++ "/"
                    ++ JS.tpl (JS.assoc "tableName" kv) ++ "/"
                    ++ JS.tpl (JS.assoc "recordId" kv))
               (option_map Value (JS.assoc "data" kv)) in
    calls (snd (exec (callTool cfg request ;; callTool cfg request) srv)) = [c; c]
    /\ method c = PATCH.
Proof.
  intros cfg kv srv request c. split; [|reflexivity].
  assert (Hone : forall log,
             exists o, run (callTool cfg request) srv log =
                       (Returned o, (log ++ [(c, srv log c)])%list)).
  { intros log. unfold callTool. rewrite run_try_catch.
    cbn [name arguments request].
    change (tool_switch cfg "update_record" (Some (JObj kv)))
      with (updateRecord (Some (JObj kv))).
    unfold updateRecord. cbn [destructure bind JS.prop].
    rewrite run_wrapped, run_bind, run_await. fold c.
    destruct (srv log c); eexists; reflexivity. }
  unfold exec. rewrite run_bind.
  destruct (Hone []) as [o1 E1]. rewrite E1. cbv beta iota.
  cbn [app].
  destruct (Hone [(c, srv [] c)]) as [o2 E2]. rewrite E2.
  reflexivity.
Qed.

(* ================================================================= *)
(** ** The envelope of a tool call *)

Lemma returns_text_ret (t : string) : returns_text (Ret (text_result t)).
Proof. intros srv log a H. injection H as <-. eexists. reflexivity. Qed.

Lemma returns_text_throw (e : exn) : returns_text (Throw e).
Proof. intros srv log a H. discriminate H. Qed.

Lemma returns_text_bind {A : Type} (p : prog A) (f : A -> prog CallToolResult) :
  (forall a, returns_text (f a)) -> returns_text (bind p f).
Proof.
  intros Hf srv log a H. rewrite run_bind in H.
  destruct (run p srv log) as [[x | e] log']; [exact (Hf x srv log' a H) | discriminate H].
Qed.

Lemma returns_text_try_catch (p : prog CallToolResult) (h : exn -> prog CallToolResult) :
  returns_text p -> (forall e, returns_text (h e)) -> returns_text (try_catch p h).
Proof.
  intros Hp Hh srv log a H. rewrite run_try_catch in H.
  specialize (Hp srv log).
  destruct (run p srv log) as [[x | e] log']; cbn [fst] in *.
  - apply Hp. exact H.
  - exact (Hh e srv log' a H).
Qed.

Ltac returns_text_steps :=
  repeat first [ apply returns_text_ret
               | apply returns_text_throw
               | apply returns_text_try_catch; [ | intros ? ]
               | apply returns_text_bind; intros ? ].

(** Whatever a handler returns is one text block without error flag. *)
Lemma tool_switch_returns_text (cfg : Config) (toolName : string) (args : option json) :
  returns_text (tool_switch cfg toolName args).
Proof.
  unfold tool_switch.
  repeat match goal with
         | |- returns_text (if ?b then _ else _) => destruct b
         end;
    unfold listProjects, createProject, listTables, createTable, queryTable, insertRecord,
      updateRecord, deleteRecord, queryTableByName, count_summary;
    returns_text_steps.
Qed.

(** X4.  A call of a tool the server knows is always answered with an
    envelope of exactly one text block, after the requests of the
    handler and no other: the text block of the handler, without error
    flag, when the handler returned, and when it threw, the text
    [Error: ] followed by the message of the handler, flagged
    [isError]. *)
Theorem tool_call_envelope :
  forall (cfg : Config) (request : CallToolRequest) (srv : remote),
    In (name request) operations ->
    let args := Some (JObj (match arguments request with Some kv => kv | None => [] end)) in
    let h := exec (tool_switch cfg (name request) args) srv in
    let r := exec (callTool cfg request) srv in
    snd r = snd h
    /\ ((exists t, fst h = Returned (text_result t) /\ fst r = Returned (text_result t))
        \/ (exists m,
              fst h = Threw (Error (failure_prefix (name request) ++ m))
              /\ fst r = Returned (error_result
                                     ("Error: " ++ failure_prefix (name request) ++ m)))).
Proof.
  intros cfg request srv Hin. cbv zeta.
  pose proof (known_tool_outcome cfg (name request)
                (match arguments request with Some kv => kv | None => [] end) srv Hin) as Hout.
  pose proof (tool_switch_returns_text cfg (name request)
                (Some (JObj (match arguments request with Some kv => kv | None => [] end)))
                srv []) as Htext.
  rewrite exec_callTool. unfold exec in *.
  destruct (run (tool_switch cfg (name request) _) srv []) as [o log].
  cbn [fst snd] in *.
  destruct Hout as [[result ->] | [m ->]].
  - destruct (Htext result eq_refl) as [t ->].
    split; [reflexivity|]. left. exists t. split; reflexivity.
  - split; [reflexivity|]. right. exists m. split; reflexivity.
Qed.

Lemma tool_call_envelope_witness :
  snd (exec (callTool bare_config {| name := "list_tables"; arguments := None |})
         (always (Rejected "timeout of 1000ms exceeded"))) =
  snd (exec (tool_switch bare_config "list_tables" (Some (JObj [])))
         (always (Rejected "timeout of 1000ms exceeded"))).
Proof.
  destruct (tool_call_envelope bare_config {| name := "list_tables"; arguments := None |}
              (always (Rejected "timeout of 1000ms exceeded"))) as [H _];
    [simpl; tauto | exact H].
Defined.

(* ================================================================= *)
(** ** The attempts of query_table_by_name *)

Lemma count_summary_cases (tableName : option json) (d : json) :
  (d <> JNull /\ exists result, count_summary tableName d = Ret result)
  \/ (d = JNull /\ exists e, count_summary tableName d = Throw e).
Proof.
  destruct d; try (left; split; [discriminate | eexists; apply count_summary_nonnull; discriminate]).
  right. split; [reflexivity | eexists; reflexivity].
Qed.

(** X5.  query_table_by_name makes one request or two and never more:
    the primary one, then at most once the alternative one.  It stops
    after the primary request exactly when that request was fulfilled
    with a body that is not [null]; a rejection, and also a [null]
    body, on which the extraction throws, sends it to the alternative
    endpoint. *)
Theorem queryTableByName_attempts :
  forall (cfg : Config) (kv : list (string * json)) (srv : remote),
    let tableName := JS.assoc "tableName" kv in
    let limit := JS.default (JS.assoc "limit" kv) (JNum 100) in
    let c1 := primary_call cfg tableName limit in
    let c2 := alternative_call cfg tableName limit in
    let log := calls (snd (exec (queryTableByName cfg (Some (JObj kv))) srv)) in
    (log = [c1] \/ log = [c1; c2])
    /\ (log = [c1] <-> exists d, srv [] c1 = Resolved d /\ d <> JNull).
Proof.
  intros cfg kv srv tableName limit c1 c2 log.
  assert (Hsecond : forall r1,
             (forall d, r1 = Resolved d -> d = JNull) ->
             srv [] c1 = r1 -> log = [c1; c2]).
  { intros r1 Hr1 E1. unfold log, exec. rewrite queryTableByName_unfold. cbv zeta.
    fold tableName limit c1 c2.
    rewrite run_try_catch, run_bind, run_await, E1. cbn [app].
    assert (Hinner : forall error,
               calls (snd (run (try_catch
                                  (response_data <- await c2 ;;
                                   count_summary tableName response_data)
                                  (fun alternativeError =>
                                     Throw (Error ("Failed to query table by name: "
                                                   ++ message error
                                                   ++ ". Alternative approach also failed: "
                                                   ++ message alternativeError))))
                             srv [(c1, r1)])) = [c1; c2]).
    { intros error. rewrite run_try_catch, run_bind, run_await. cbn [app].
      destruct (srv [(c1, r1)] c2) as [d2 | m2]; [|reflexivity].
      destruct (count_summary_cases tableName d2) as [[_ [res ->]] | [_ [e ->]]];
        reflexivity. }
    destruct r1 as [d | m].
    - assert (Hd : d = JNull) by (apply Hr1; reflexivity). subst d.
      cbn [count_summary member bind run]. apply Hinner.
    - apply Hinner. }
  destruct (srv [] c1) as [d | m] eqn:E1.
  - destruct (count_summary_cases tableName d) as [[Hd [res Hres]] | [Hd _]].
    + assert (Hlog : log = [c1]).
      { unfold log, exec. rewrite queryTableByName_unfold. cbv zeta.
        fold tableName limit c1 c2.
        rewrite run_try_catch, run_bind, run_await, E1, Hres. reflexivity. }
      split; [left; exact Hlog|]. split; [|intros _; exact Hlog].
      intros _. exists d. split; [reflexivity | exact Hd].
    + assert (Hlog : log = [c1; c2]).
      { apply (Hsecond (Resolved d)); [|reflexivity].
        intros d' Hd'. injection Hd' as <-. exact Hd. }
      split; [right; exact Hlog|]. rewrite Hlog. split; [discriminate|].
      intros [d' [Hd' Hnn]]. injection Hd' as <-. contradiction.
  - assert (Hlog : log = [c1; c2]).
    { apply (Hsecond (Rejected m)); [|reflexivity]. intros d' Hd'. discriminate Hd'. }
    split; [right; exact Hlog|]. rewrite Hlog. split; [discriminate|].
    intros [d' [Hd' _]]. discriminate Hd'.
Qed.

(** A fulfilled primary request with the body [null] is treated as a
    failure of the primary endpoint. *)
Example queryTableByName_null_body :
  exec (queryTableByName bare_config (Some (JObj [("tableName", JStr "Tasks")])))
       (scripted [Resolved JNull; Resolved (JObj [("list", JArr [JObj []])])]) =
  (Returned (text_result "Table Tasks contains 1 total records. Retrieved 1 records."),
   [(primary_call bare_config (Some (JStr "Tasks")) (JNum 100), Resolved JNull);
    (alternative_call bare_config (Some (JStr "Tasks")) (JNum 100),
     Resolved (JObj [("list", JArr [JObj []])]))]).
Proof. reflexivity. Qed.

(* ================================================================= *)
(** ** The HTTP method of a tool *)

Lemma requests_only_ret {A : Type} (P : call -> Prop) (a : A) : requests_only P (Ret a).
Proof. intros srv log H. exact H. Qed.

Lemma requests_only_throw {A : Type} (P : call -> Prop) (e : exn) :
  requests_only P (@Throw A e).
Proof. intros srv log H. exact H. Qed.

Lemma requests_only_await (P : call -> Prop) (c : call) :
  P c -> requests_only P (await c).
Proof.
  intros Hc srv log H. rewrite run_await. cbn [snd].
  rewrite calls_snoc. apply Forall_app. split; [exact H|]. constructor; [exact Hc | constructor].
Qed.

Lemma requests_only_bind {A B : Type} (P : call -> Prop) (p : prog A) (f : A -> prog B) :
  requests_only P p -> (forall a, requests_only P (f a)) -> requests_only P (bind p f).
Proof.
  intros Hp Hf srv log H. rewrite run_bind.
  specialize (Hp srv log H).
  destruct (run p srv log) as [[a | e] log']; cbn [snd] in *; [apply Hf; exact Hp | exact Hp].
Qed.

Lemma requests_only_try_catch {A : Type} (P : call -> Prop) (p : prog A) (h : exn -> prog A) :
  requests_only P p -> (forall e, requests_only P (h e)) -> requests_only P (try_catch p h).
Proof.
  intros Hp Hh srv log H. rewrite run_try_catch.
  specialize (Hp srv log H).
  destruct (run p srv log) as [[a | e] log']; cbn [snd] in *; [exact Hp | apply Hh; exact Hp].
Qed.

Lemma requests_only_member (P : call -> Prop) (v : option json) (k : string) :
  requests_only P (member v k).
Proof.
  destruct v as [[] |]; first [apply requests_only_ret | apply requests_only_throw].
Qed.

Lemma requests_only_iterate (P : call -> Prop) (v : option json) (what : string) :
  requests_only P (iterate v what).
Proof.
  destruct v as [[] |]; first [apply requests_only_ret | apply requests_only_throw].
Qed.

Lemma requests_only_Object_keys (P : call -> Prop) (v : json) :
  requests_only P (Object_keys v).
Proof.
  destruct v; first [apply requests_only_ret | apply requests_only_throw].
Qed.

Lemma requests_only_destructure (P : call -> Prop) (args : option json) (first : string) :
  requests_only P (destructure args first).
Proof.
  destruct args as [[] |]; first [apply requests_only_ret | apply requests_only_throw].
Qed.

Ltac requests_only_steps :=
  cbv zeta;
  repeat first [ apply requests_only_ret
               | apply requests_only_throw
               | apply requests_only_await; reflexivity
               | apply requests_only_member
               | apply requests_only_iterate
               | apply requests_only_Object_keys
               | apply requests_only_destructure
               | apply requests_only_try_catch; [ | intros ? ]
               | apply requests_only_bind; [ | intros ? ]
               | match goal with
                 | |- requests_only _ (if ?b then _ else _) => destruct b
                 end ].

Lemma requests_only_add_columns (tableId : option json) (columns : list json) :
  requests_only (fun c => method c = POST) (add_columns tableId columns).
Proof.
  induction columns as [| column rest IH]; cbn [add_columns].
  - apply requests_only_ret.
  - apply requests_only_bind; [|intros _; exact IH].
    unfold add_column. requests_only_steps.
Qed.

(** X6.  Every request of a tool has the HTTP method of that tool: GET
    for list_projects, list_tables, query_table and query_table_by_name,
    POST for create_project, create_table and insert_record, PATCH for
    update_record, DELETE for delete_record.  So the four reading tools
    never modify anything, and create_table deletes nothing when a
    column fails. *)
Theorem tool_requests_have_tool_verb :
  forall (cfg : Config) (toolName : string) (args : option json) (srv : remote),
    Forall (fun c => method c = tool_verb toolName)
           (calls (snd (exec (tool_switch cfg toolName args) srv))).
Proof.
  intros cfg toolName args srv.
  assert (H : requests_only (fun c => method c = tool_verb toolName)
                (tool_switch cfg toolName args)).
  { unfold tool_switch.
    repeat match goal with
           | |- requests_only _ (if String.eqb toolName ?s then _ else _) =>
               destruct (String.eqb_spec toolName s) as [-> | _]
           end;
      try apply requests_only_throw;
      unfold listProjects, createProject, listTables, createTable, queryTable, insertRecord,
        updateRecord, deleteRecord, queryTableByName, count_summary;
      cbn [tool_verb String.eqb Ascii.eqb Bool.eqb];
      requests_only_steps;
      first [ apply requests_only_add_columns | idtac ]. }
  apply (H srv []). constructor.
Qed.

(* ================================================================= *)
(** ** create_table when something fails *)

(** The loop asks for the columns in order and stops at the first entry
    it cannot add: the requests are those of the first [n] columns, and
    it returns only if it went through them all. *)
Lemma run_add_columns_prefix (tableId : option json) (srv : remote) (columns : list json) :
  forall log, exists n,
    n <= List.length columns
    /\ calls (snd (run (add_columns tableId columns) srv log)) =
       (calls log ++ map (column_call tableId) (firstn n columns))%list
    /\ (n < List.length columns ->
        exists m, fst (run (add_columns tableId columns) srv log) = Threw (Error m))
    /\ (n = List.length columns ->
        fst (run (add_columns tableId columns) srv log) = Returned tt
        \/ exists m, fst (run (add_columns tableId columns) srv log) = Threw (Error m)).
Proof.
  induction columns as [| column rest IH]; intros log.
  - exists 0. cbn. rewrite app_nil_r. repeat split; auto. intros H. inversion H.
  - cbn [add_columns]. rewrite run_bind.
    destruct (json_null_dec column) as [-> | Hc].
    + exists 0. cbn. rewrite app_nil_r. repeat split; auto with arith.
      * intros _. eexists. reflexivity.
      * intros H. discriminate H.
    + rewrite add_column_nonnull by exact Hc. rewrite run_bind, run_await.
      destruct (srv log (column_call tableId column)) as [d | m] eqn:E.
      * cbn [run].
        destruct (IH (log ++ [(column_call tableId column, Resolved d)])%list)
          as [n [Hn [Hcalls [Hlt Heq]]]].
        exists (S n). cbn [List.length firstn map].
        split; [auto with arith|]. split.
        { rewrite Hcalls, calls_snoc, <- app_assoc. reflexivity. }
        split.
        { intros H. apply Hlt. auto with arith. }
        { intros H. apply Heq. congruence. }
      * exists 1. cbn [List.length firstn map snd fst].
        split; [auto with arith|]. split.
        { rewrite calls_snoc. destruct rest; reflexivity. }
        split; intros _; [|right]; eexists; reflexivity.
Qed.

(** X7.  Whatever the remote service answers, the requests of
    create_table with a [columns] array are the POST that creates the
    table followed by the column-add POSTs of the first [n] entries, in
    the order of the array, for some [n] up to the length of the
    array: never more than 1 + N, never out of order, and nothing that
    undoes a request already made.  When it stops short of the last
    column it throws the error of its [catch]. *)
Theorem createTable_requests_prefix :
  forall (kv : list (string * json)) (columns : list json) (srv : remote),
    let projectId := JS.assoc "projectId" kv in
    let tableName := JS.assoc "tableName" kv in
    let r := exec (createTable (Some (JObj kv))) srv in
    JS.assoc "columns" kv = Some (JArr columns) ->
    exists tableId n,
      n <= List.length columns
      /\ calls (snd r) =
         table_call projectId tableName :: map (column_call tableId) (firstn n columns)
      /\ (n < List.length columns ->
          exists m, fst r = Threw (Error ("Failed to create table: " ++ m))).
Proof.
  intros kv columns srv projectId tableName r Hcols.
  unfold r, exec, createTable. cbn [destructure bind JS.prop].
  fold projectId tableName. rewrite Hcols.
  rewrite run_wrapped, run_bind, run_await.
  fold (table_call projectId tableName). cbn [app].
  destruct (srv [] (table_call projectId tableName)) as [d | m] eqn:E.
  - destruct (json_null_dec d) as [-> | Hd].
    + exists None, 0. cbn. split; [auto with arith|]. split; [reflexivity|].
      intros _. eexists. reflexivity.
    + rewrite member_nonnull by exact Hd. cbn [bind iterate].
      rewrite run_bind.
      destruct (run_add_columns_prefix (JS.prop d "id") srv columns
                  [(table_call projectId tableName, Resolved d)])
        as [n [Hn [Hcalls [Hlt _]]]].
      exists (JS.prop d "id"), n. split; [exact Hn|].
      destruct (run (add_columns (JS.prop d "id") columns) srv
                  [(table_call projectId tableName, Resolved d)]) as [[[] | e] log'];
        cbn [fst snd] in *.
      * split; [exact Hcalls|]. intros H. destruct (Hlt H) as [m Hm]. discriminate Hm.
      * split; [exact Hcalls|]. intros _. eexists. reflexivity.
  - exists None, 0. cbn. split; [auto with arith|]. split; [reflexivity|].
    intros _. eexists. reflexivity.
Qed.

Lemma createTable_requests_prefix_witness :
  exists tableId n,
    n <= 2
    /\ calls (snd (exec (createTable
                           (Some (JObj [("projectId", JStr "p1"); ("tableName", JStr "Tasks");
                                        ("columns", JArr [JObj [("column_name", JStr "a")];
                                                          JObj [("column_name", JStr "b")]])])))
                        (scripted [Resolved (JObj [("id", JStr "tbl9")]);
                                   Rejected "Bad Request"]))) =
       table_call (Some (JStr "p1")) (Some (JStr "Tasks"))
       :: map (column_call tableId)
            (firstn n [JObj [("column_name", JStr "a")]; JObj [("column_name", JStr "b")]])
    /\ (n < 2 ->
        exists m,
          fst (exec (createTable
                       (Some (JObj [("projectId", JStr "p1"); ("tableName", JStr "Tasks");
                                    ("columns", JArr [JObj [("column_name", JStr "a")];
                                                      JObj [("column_name", JStr "b")]])])))
                    (scripted [Resolved (JObj [("id", JStr "tbl9")]);
                               Rejected "Bad Request"])) =
          Threw (Error ("Failed to create table: " ++ m))).
Proof.
  apply (createTable_requests_prefix
           [("projectId", JStr "p1"); ("tableName", JStr "Tasks");
            ("columns", JArr [JObj [("column_name", JStr "a")];
                              JObj [("column_name", JStr "b")]])]
           [JObj [("column_name", JStr "a")]; JObj [("column_name", JStr "b")]]
           (scripted [Resolved (JObj [("id", JStr "tbl9")]); Rejected "Bad Request"])).
  reflexivity.
Defined.

(* ================================================================= *)
(** ** Arguments no handler reads *)

Lemma assoc_skip {V : Type} (key k : string) (v : V) (kv1 kv2 : list (string * V)) :
  key <> k ->
  JS.assoc key (kv1 ++ (k, v) :: kv2)%list = JS.assoc key (kv1 ++ kv2)%list.
Proof.
  intros Hne. induction kv1 as [| [k' v'] rest IH]; cbn [app JS.assoc].
  - apply String.eqb_neq in Hne. rewrite Hne. reflexivity.
  - rewrite IH. reflexivity.
Qed.

(** X8.  A property of the argument bag that no handler reads is
    ignored, wherever it stands in the bag: the handler is the same
    program with it and without it, so it makes the same requests and
    gives the same answer. *)
Theorem unknown_argument_is_ignored :
  forall (cfg : Config) (toolName : string) (kv1 kv2 : list (string * json))
         (k : string) (v : json),
    ~ In k argument_names ->
    tool_switch cfg toolName (Some (JObj (kv1 ++ (k, v) :: kv2)%list)) =
    tool_switch cfg toolName (Some (JObj (kv1 ++ kv2)%list)).
Proof.
  intros cfg toolName kv1 kv2 k v Hk.
  assert (Hskip : forall key, In key argument_names ->
                              JS.assoc key (kv1 ++ (k, v) :: kv2)%list
                              = JS.assoc key (kv1 ++ kv2)%list).
  { intros key Hkey. apply assoc_skip. intros ->. contradiction. }
  unfold tool_switch, createProject, listTables, createTable, queryTable, insertRecord,
    updateRecord, deleteRecord, queryTableByName.
  cbn [destructure bind JS.prop].
  rewrite !(Hskip "title"), !(Hskip "description"), !(Hskip "projectId"),
    !(Hskip "tableName"), !(Hskip "columns"), !(Hskip "filters"), !(Hskip "limit"),
    !(Hskip "offset"), !(Hskip "recordId"), !(Hskip "data") by (simpl; tauto).
  reflexivity.
Qed.

Lemma unknown_argument_is_ignored_witness :
  tool_switch bare_config "delete_record"
    (Some (JObj ([("projectId", JStr "p1")]
                 ++ ("verbose", JBool true)
                 :: [("tableName", JStr "Tasks"); ("recordId", JNum 7)])%list)) =
  tool_switch bare_config "delete_record"
    (Some (JObj ([("projectId", JStr "p1")]
                 ++ [("tableName", JStr "Tasks"); ("recordId", JNum 7)])%list)).
Proof.
  apply (unknown_argument_is_ignored bare_config "delete_record"
           [("projectId", JStr "p1")] [("tableName", JStr "Tasks"); ("recordId", JNum 7)]
           "verbose" (JBool true)).
  cbv. intuition discriminate.
Defined.

(* ================================================================= *)
(** ** executeCommand *)

Lemma run_rethrow {A : Type} (p : prog A) (srv : remote) (log : list event) :
  run (try_catch p (fun error => Throw error)) srv log = run p srv log.
Proof.
  rewrite run_try_catch. destruct (run p srv log) as [[a | e] log']; reflexivity.
Qed.

Lemma commands_are_operations (a : string) : In a commands -> In a operations.
Proof.
  simpl. intuition.
Qed.

(** For an action it has a case for, [executeCommand] is the handler of
    the tool of that name, applied to [comando.params], in a [try]
    whose [catch] throws the error on. *)
Lemma executeCommand_routes (cfg : Config) (comando : json) (a : string) :
  JS.prop comando "action" = Some (JStr a) ->
  In a commands ->
  executeCommand cfg comando =
  try_catch (tool_switch cfg a (JS.prop comando "params")) (fun error => Throw error).
Proof.
  intros Ha Hin.
  assert (Hm : member (Some comando) "action" = Ret (Some (JStr a))).
  { rewrite member_nonnull; [rewrite Ha; reflexivity|]. intros ->. discriminate Ha. }
  unfold executeCommand. rewrite Hm. simpl in Hin.
  destruct Hin as [<- | [<- | [<- | [<- | [<- | [<- | [<- | []]]]]]]]; reflexivity.
Qed.

(** X9.  For the seven actions it knows, with an object as [params],
    [executeCommand] makes the requests and has the outcome of the
    handler itself; the tool call of the same name and arguments makes
    the same requests and differs only in that an error the command
    throws comes back as an error envelope with [Error: ] before its
    message. *)
Theorem executeCommand_agrees_with_tool_call :
  forall (cfg : Config) (comando : json) (a : string) (kv : list (string * json))
         (srv : remote),
    In a commands ->
    JS.prop comando "action" = Some (JStr a) ->
    JS.prop comando "params" = Some (JObj kv) ->
    exec (executeCommand cfg comando) srv = exec (tool_switch cfg a (Some (JObj kv))) srv
    /\ exec (callTool cfg {| name := a; arguments := Some kv |}) srv =
       match exec (executeCommand cfg comando) srv with
       | (Returned result, log) => (Returned result, log)
       | (Threw e, log) => (Returned (error_result ("Error: " ++ message e)), log)
       end.
Proof.
  intros cfg comando a kv srv Hin Ha Hp.
  assert (E : exec (executeCommand cfg comando) srv =
              exec (tool_switch cfg a (Some (JObj kv))) srv).
  { unfold exec. rewrite (executeCommand_routes cfg comando a Ha Hin), Hp.
    apply run_rethrow. }
  split; [exact E|].
  rewrite E, exec_callTool. cbn [name arguments].
  pose proof (known_tool_outcome cfg a kv srv (commands_are_operations a Hin)) as Hout.
  destruct (exec (tool_switch cfg a (Some (JObj kv))) srv) as [[result | [m | code m]] log];
    try reflexivity.
  cbn [fst] in Hout. destruct Hout as [[result H] | [m' H]]; discriminate H.
Qed.

Lemma executeCommand_agrees_with_tool_call_witness :
  exec (executeCommand bare_config
          (JObj [("action", JStr "list_tables");
                 ("params", JObj [("projectId", JStr "p1")])]))
       (always (Rejected "Network Error")) =
  exec (tool_switch bare_config "list_tables" (Some (JObj [("projectId", JStr "p1")])))
       (always (Rejected "Network Error")).
Proof.
  destruct (executeCommand_agrees_with_tool_call bare_config
              (JObj [("action", JStr "list_tables");
                     ("params", JObj [("projectId", JStr "p1")])])
              "list_tables" [("projectId", JStr "p1")]
              (always (Rejected "Network Error"))) as [H _];
    [simpl; tauto | reflexivity | reflexivity | exact H].
Defined.

(** X10.  A command for one of the six actions that take arguments,
    sent without [params] or with [params] null, makes [executeCommand]
    throw the TypeError of the destructuring, which stands before the
    [try] of the handler: no request is made and the message has none
    of the handlers' prefixes. *)
Theorem executeCommand_without_params :
  forall (cfg : Config) (comando : json) (a : string) (srv : remote),
    In a commands ->
    a <> "list_projects" ->
    JS.prop comando "action" = Some (JStr a) ->
    JS.prop comando "params" = None \/ JS.prop comando "params" = Some JNull ->
    exists m,
      exec (executeCommand cfg comando) srv = (Threw (Error m), [])
      /\ String.prefix "Cannot destructure property" m = true.
Proof.
  intros cfg comando a srv Hin Hne Ha Hp.
  unfold exec. rewrite (executeCommand_routes cfg comando a Ha Hin), run_rethrow.
  simpl in Hin.
  destruct Hin as [<- | [<- | [<- | [<- | [<- | [<- | [<- | []]]]]]]];
    try congruence;
    destruct Hp as [-> | ->]; eexists; split; reflexivity.
Qed.

Lemma executeCommand_without_params_witness :
  exists m,
    exec (executeCommand bare_config (JObj [("action", JStr "insert_record")]))
         (always (Resolved (JObj []))) = (Threw (Error m), [])
    /\ String.prefix "Cannot destructure property" m = true.
Proof.
  apply (executeCommand_without_params bare_config
           (JObj [("action", JStr "insert_record")]) "insert_record").
  - simpl. tauto.
  - discriminate.
  - reflexivity.
  - left. reflexivity.
Defined.

Lemma is_case_false (v : option json) (label : string) :
  v <> Some (JStr label) -> is_case v label = false.
Proof.
  intros H. unfold is_case, case_label.
  destruct v as [[| | | s | |] |]; try reflexivity.
  apply String.eqb_neq. intros ->. contradiction.
Qed.

(** X11.  A command whose [action] is none of the seven strings, be it
    another string, a value that is no string, or missing, makes
    [executeCommand] throw the unknown-command error with the action
    as a template literal prints it; no handler runs and no request is
    made. *)
Theorem executeCommand_unknown_action :
  forall (cfg : Config) (comando : json) (srv : remote),
    comando <> JNull ->
    (forall a, In a commands -> JS.prop comando "action" <> Some (JStr a)) ->
    executeCommand cfg comando =
      Throw (Error ("Comando desconhecido: " ++ JS.tpl (JS.prop comando "action")))
    /\ exec (executeCommand cfg comando) srv =
      (Threw (Error ("Comando desconhecido: " ++ JS.tpl (JS.prop comando "action"))), []).
Proof.
  intros cfg comando srv Hnn Hno.
  assert (E : executeCommand cfg comando =
              Throw (Error ("Comando desconhecido: " ++ JS.tpl (JS.prop comando "action")))).
  { unfold executeCommand. rewrite member_nonnull by exact Hnn. cbn [bind].
    rewrite !is_case_false by (apply Hno; simpl; tauto). reflexivity. }
  split; [exact E|]. rewrite E. reflexivity.
Qed.

Lemma executeCommand_unknown_action_witness :
  executeCommand bare_config (JObj [("params", JObj [])]) =
    Throw (Error "Comando desconhecido: undefined")
  /\ exec (executeCommand bare_config (JObj [("params", JObj [])]))
          (always (Resolved JNull)) =
    (Threw (Error "Comando desconhecido: undefined"), []).
Proof.
  apply (executeCommand_unknown_action bare_config (JObj [("params", JObj [])])).
  - discriminate.
  - intros a _. discriminate.
Defined.

(* ================================================================= *)
(** ** Listing resources *)

Lemma push_tables_incl (project : json) (tables : list json) :
  forall resources, incl resources (Resources.push_tables project tables resources).
Proof.
  induction tables as [| table rest IH]; intros resources; cbn [Resources.push_tables].
  - apply incl_refl.
  - destruct table; try apply incl_refl;
      (eapply incl_tran; [|apply IH]); apply incl_appl, incl_refl.
Qed.

Lemma push_tables_all (project : json) (tables : list json) :
  Forall (fun table => table <> JNull) tables ->
  forall resources,
    Resources.push_tables project tables resources =
    (resources ++ map (Resources.table_resource project) tables)%list.
Proof.
  induction 1 as [| table rest Ht _ IH]; intros resources; cbn [Resources.push_tables map].
  - now rewrite app_nil_r.
  - destruct table; try contradiction; rewrite IH, <- app_assoc; reflexivity.
Qed.

(** The tables of one project: one request, no error, and nothing
    taken from the array. *)
Lemma run_push_project_tables (project : json) (resources : list Resources.Resource)
      (srv : remote) (log : list event) :
  exists resources',
    run (Resources.push_project_tables project resources) srv log =
      (Returned resources',
       (log ++ [(Resources.tables_call project, srv log (Resources.tables_call project))])%list)
    /\ incl resources resources'.
Proof.
  unfold Resources.push_project_tables.
  rewrite run_try_catch, run_bind, run_await.
  destruct (srv log (Resources.tables_call project)) as [d | m].
  - destruct (json_null_dec d) as [-> | Hd].
    + eexists. split; [reflexivity | apply incl_refl].
    + rewrite member_nonnull by exact Hd. cbn [bind].
      destruct (or_empty (JS.prop d "list")) eqn:El; cbn [iterate bind run];
        try (eexists; split; [reflexivity | apply incl_refl]);
        (eexists; split; [reflexivity | apply push_tables_incl]).
  - eexists. split; [reflexivity | apply incl_refl].
Qed.

Lemma run_push_projects (srv : remote) (projects : list json) :
  Forall (fun project => project <> JNull) projects ->
  forall resources log, exists resources' log',
    run (Resources.push_projects projects resources) srv log = (Returned resources', log')
    /\ calls log' = (calls log ++ map Resources.tables_call projects)%list
    /\ incl resources resources'
    /\ (forall project, In project projects ->
                        In (Resources.project_resource project) resources').
Proof.
  induction 1 as [| project rest Hp _ IH]; intros resources log.
  - exists resources, log. cbn. rewrite app_nil_r.
    repeat split; [apply incl_refl | intros ? []].
  - cbn [Resources.push_projects]. rewrite member_nonnull by exact Hp. cbn [bind].
    rewrite run_bind.
    destruct (run_push_project_tables project
                (resources ++ [Resources.project_resource project])%list srv log)
      as [rs1 [-> Hincl1]].
    destruct (IH rs1 (log ++ [(Resources.tables_call project,
                               srv log (Resources.tables_call project))])%list)
      as [rs2 [log2 [Hrun [Hcalls [Hincl2 Hall]]]]].
    exists rs2, log2. split; [exact Hrun|]. split.
    { rewrite Hcalls, calls_snoc, <- app_assoc. reflexivity. }
    split.
    { intros x Hx. apply Hincl2, Hincl1, in_or_app. left. exact Hx. }
    intros p [<- | Hin].
    + apply Hincl2, Hincl1, in_or_app. right. left. reflexivity.
    + apply Hall. exact Hin.
Qed.

(** X12.  Listing the resources never fails: whatever the remote
    service does the handler returns a list.  When the request for the
    projects is rejected the list is empty and no other request is
    made. *)
Theorem listResources_never_throws :
  forall (srv : remote),
    (exists result, fst (exec Resources.listResources srv) = Returned result)
    /\ (forall m,
          srv [] (get "/api/v1/db/meta/projects") = Rejected m ->
          exec Resources.listResources srv =
            (Returned {| Resources.resources := [] |},
             [(get "/api/v1/db/meta/projects", Rejected m)])).
Proof.
  intros srv. split.
  - unfold exec, Resources.listResources. rewrite run_try_catch.
    destruct (run _ srv []) as [[a | e] log]; eexists; reflexivity.
  - intros m Hm. unfold exec, Resources.listResources.
    rewrite run_try_catch, run_bind, run_await, Hm. reflexivity.
Qed.

(** X13.  When the projects arrive as an array without [null], every
    project is in the list that is returned, whatever happens to the
    requests for the tables: a rejected tables request costs the tables
    of that project and nothing else.  One tables request is made per
    project, in the order of the array, after the request for the
    projects. *)
Theorem listResources_keeps_every_project :
  forall (srv : remote) (d : json) (projects : list json),
    srv [] (get "/api/v1/db/meta/projects") = Resolved d ->
    JS.prop d "list" = Some (JArr projects) ->
    Forall (fun project => project <> JNull) projects ->
    exists resources,
      fst (exec Resources.listResources srv) =
        Returned {| Resources.resources := resources |}
      /\ (forall project, In project projects ->
                          In (Resources.project_resource project) resources)
      /\ calls (snd (exec Resources.listResources srv)) =
         get "/api/v1/db/meta/projects" :: map Resources.tables_call projects.
Proof.
  intros srv d projects Hd Hlist Hnn.
  assert (Hdn : d <> JNull) by (intros ->; discriminate Hlist).
  destruct (run_push_projects srv projects Hnn []
              [(get "/api/v1/db/meta/projects", Resolved d)])
    as [rs [log' [Hrun [Hcalls [_ Hall]]]]].
  exists rs.
  assert (E : exec Resources.listResources srv =
              (Returned {| Resources.resources := rs |}, log')).
  { unfold exec, Resources.listResources.
    rewrite run_try_catch, run_bind, run_await, Hd.
    rewrite member_nonnull by exact Hdn. rewrite Hlist.
    cbn [or_empty JS.truthy bind iterate app]. rewrite run_bind, Hrun. reflexivity. }
  rewrite E. cbn [fst snd]. split; [reflexivity|]. split; [exact Hall|].
  rewrite Hcalls. reflexivity.
Qed.

Lemma listResources_keeps_every_project_witness :
  exists resources,
    fst (exec Resources.listResources
           (scripted [Resolved (JObj [("list", JArr [JObj [("id", JStr "p1");
                                                           ("title", JStr "Sales")];
                                                     JObj [("id", JStr "p2");
                                                           ("title", JStr "Stock")]])]);
                      Rejected "Request failed with status code 403";
                      Resolved (JObj [("list", JArr [])])])) =
      Returned {| Resources.resources := resources |}
    /\ (forall project,
          In project [JObj [("id", JStr "p1"); ("title", JStr "Sales")];
                      JObj [("id", JStr "p2"); ("title", JStr "Stock")]] ->
          In (Resources.project_resource project) resources)
    /\ calls (snd (exec Resources.listResources
                     (scripted [Resolved (JObj [("list",
                                                 JArr [JObj [("id", JStr "p1");
                                                             ("title", JStr "Sales")];
                                                       JObj [("id", JStr "p2");
                                                             ("title", JStr "Stock")]])]);
                                Rejected "Request failed with status code 403";
                                Resolved (JObj [("list", JArr [])])]))) =
       get "/api/v1/db/meta/projects"
       :: map Resources.tables_call [JObj [("id", JStr "p1"); ("title", JStr "Sales")];
                                     JObj [("id", JStr "p2"); ("title", JStr "Stock")]].
Proof.
  apply (listResources_keeps_every_project
           (scripted [Resolved (JObj [("list", JArr [JObj [("id", JStr "p1");
                                                           ("title", JStr "Sales")];
                                                     JObj [("id", JStr "p2");
                                                           ("title", JStr "Stock")]])]);
                      Rejected "Request failed with status code 403";
                      Resolved (JObj [("list", JArr [])])])
           (JObj [("list", JArr [JObj [("id", JStr "p1"); ("title", JStr "Sales")];
                                 JObj [("id", JStr "p2"); ("title", JStr "Stock")]])])).
  - reflexivity.
  - reflexivity.
  - repeat constructor; discriminate.
Defined.

Lemma run_push_projects_fulfilled (answer : call -> http_result) (tables : json -> list json)
      (projects : list json) :
  Forall (fun project => project <> JNull) projects ->
  (forall project, In project projects ->
     exists d, answer (Resources.tables_call project) = Resolved d
               /\ JS.prop d "list" = Some (JArr (tables project))
               /\ Forall (fun table => table <> JNull) (tables project)) ->
  forall resources log,
    fst (run (Resources.push_projects projects resources) (stateless answer) log) =
    Returned (resources
              ++ flat_map (fun project =>
                             Resources.project_resource project
                             :: map (Resources.table_resource project) (tables project))
                   projects)%list.
Proof.
  induction 1 as [| project rest Hp _ IH]; intros Hans resources log.
  - cbn. now rewrite app_nil_r.
  - cbn [Resources.push_projects flat_map].
    rewrite member_nonnull by exact Hp. cbn [bind]. rewrite run_bind.
    destruct (Hans project (or_introl eq_refl)) as [d [Hd [Hlist Hnn]]].
    assert (Hdn : d <> JNull) by (intros ->; discriminate Hlist).
    unfold Resources.push_project_tables.
    rewrite run_try_catch, run_bind, run_await.
    change (stateless answer log (Resources.tables_call project))
      with (answer (Resources.tables_call project)).
    rewrite Hd. rewrite member_nonnull by exact Hdn. rewrite Hlist.
    cbn [or_empty JS.truthy bind iterate run].
    rewrite push_tables_all by exact Hnn.
    rewrite IH by (intros p Hin; apply Hans; right; exact Hin).
    rewrite <- !app_assoc. reflexivity.
Qed.

(** X14.  When the projects arrive as an array without [null] and the
    tables of each project as such an array too, the list returned is,
    project after project in the order of the projects array, the
    resource of the project followed by the resources of its tables in
    the order of its tables array. *)
Theorem listResources_all_fulfilled :
  forall (answer : call -> http_result) (d : json) (projects : list json)
         (tables : json -> list json),
    answer (get "/api/v1/db/meta/projects") = Resolved d ->
    JS.prop d "list" = Some (JArr projects) ->
    Forall (fun project => project <> JNull) projects ->
    (forall project, In project projects ->
       exists dt, answer (Resources.tables_call project) = Resolved dt
                  /\ JS.prop dt "list" = Some (JArr (tables project))
                  /\ Forall (fun table => table <> JNull) (tables project)) ->
    fst (exec Resources.listResources (stateless answer)) =
    Returned {| Resources.resources :=
                 flat_map (fun project =>
                             Resources.project_resource project
                             :: map (Resources.table_resource project) (tables project))
                   projects |}.
Proof.
  intros answer d projects tables Hd Hlist Hnn Hans.
  assert (Hdn : d <> JNull) by (intros ->; discriminate Hlist).
  pose proof (run_push_projects_fulfilled answer tables projects Hnn Hans []
                [(get "/api/v1/db/meta/projects", Resolved d)]) as Hrun.
  unfold exec, Resources.listResources.
  rewrite run_try_catch, run_bind, run_await.
  change (stateless answer [] (get "/api/v1/db/meta/projects"))
    with (answer (get "/api/v1/db/meta/projects")).
  rewrite Hd. rewrite member_nonnull by exact Hdn. rewrite Hlist.
  cbn [or_empty JS.truthy bind iterate app]. rewrite run_bind.
  destruct (run (Resources.push_projects projects []) (stateless answer) _) as [o log'].
  cbn [fst] in Hrun. rewrite Hrun. reflexivity.
Qed.

Lemma listResources_all_fulfilled_witness :
  fst (exec Resources.listResources
         (stateless (fun c =>
            if String.eqb (url c) "/api/v1/db/meta/projects"
            then Resolved (JObj [("list", JArr [JObj [("id", JStr "p1");
                                                      ("title", JStr "Sales")]])])
            else Resolved (JObj [("list", JArr [JObj [("id", JStr "t1");
                                                      ("title", JStr "Orders")]])])))) =
  Returned {| Resources.resources :=
               [ {| Resources.uri := "nocodb://project/p1";
                    Resources.mimeType := "application/json";
                    Resources.name := Some (JStr "Sales");
                    Resources.description := "NocoDB project: Sales" |};
                 {| Resources.uri := "nocodb://table/p1/t1";
                    Resources.mimeType := "application/json";
                    Resources.name := Some (JStr "Orders");
                    Resources.description := "Table Orders in project Sales" |} ] |}.
Proof.
  apply (listResources_all_fulfilled
           (fun c =>
              if String.eqb (url c) "/api/v1/db/meta/projects"
              then Resolved (JObj [("list", JArr [JObj [("id", JStr "p1");
                                                        ("title", JStr "Sales")]])])
              else Resolved (JObj [("list", JArr [JObj [("id", JStr "t1");
                                                        ("title", JStr "Orders")]])]))
           (JObj [("list", JArr [JObj [("id", JStr "p1"); ("title", JStr "Sales")]])])
           [JObj [("id", JStr "p1"); ("title", JStr "Sales")]]
           (fun _ => [JObj [("id", JStr "t1"); ("title", JStr "Orders")]])).
  - reflexivity.
  - reflexivity.
  - repeat constructor; discriminate.
  - intros project [<- | []]. eexists. split; [reflexivity|]. split; [reflexivity|].
    repeat constructor; discriminate.
Defined.

(* ================================================================= *)
(** ** Reading a resource *)

(** X15.  A URI that starts with neither [nocodb://project/] nor
    [nocodb://table/] is refused with [McpError(InvalidRequest)] naming
    the URI, before any request. *)
Theorem readResource_invalid_uri :
  forall (uri : string) (srv : remote),
    String.prefix "nocodb://project/" uri = false ->
    String.prefix "nocodb://table/" uri = false ->
    Resources.readResource uri =
      Throw (McpError InvalidRequest ("Formato de URI inválido: " ++ uri))
    /\ exec (Resources.readResource uri) srv =
      (Threw (McpError InvalidRequest ("Formato de URI inválido: " ++ uri)), []).
Proof.
  intros uri srv H1 H2.
  assert (E : Resources.readResource uri =
              Throw (McpError InvalidRequest ("Formato de URI inválido: " ++ uri))).
  { unfold Resources.readResource. rewrite H1, H2. reflexivity. }
  split; [exact E|]. rewrite E. reflexivity.
Qed.

Lemma readResource_invalid_uri_witness :
  Resources.readResource "nocodb://view/p1/v1" =
    Throw (McpError InvalidRequest ("Formato de URI inválido: " ++ "nocodb://view/p1/v1"))
  /\ exec (Resources.readResource "nocodb://view/p1/v1") (always (Resolved JNull)) =
    (Threw (McpError InvalidRequest ("Formato de URI inválido: " ++ "nocodb://view/p1/v1")),
     []).
Proof.
  apply (readResource_invalid_uri "nocodb://view/p1/v1"); reflexivity.
Defined.

(** X16.  Reading a resource ends in one of three ways: it returns the
    contents, or it throws [McpError(InternalError)] because a request
    or the reading of a response failed, or it throws
    [McpError(InvalidRequest)] without having made a request.  It never
    throws a plain error and never makes more than two requests. *)
Theorem readResource_outcomes :
  forall (uri : string) (srv : remote),
    let r := exec (Resources.readResource uri) srv in
    ((exists result, fst r = Returned result)
     \/ (exists m, fst r = Threw (McpError InternalError m))
     \/ (exists m, fst r = Threw (McpError InvalidRequest m) /\ snd r = []))
    /\ List.length (snd r) <= 2.
Proof.
  intros uri srv. cbv zeta. unfold exec, Resources.readResource.
  destruct (String.prefix "nocodb://project/" uri);
    [| destruct (String.prefix "nocodb://table/" uri)].
  - rewrite run_try_catch, run_bind, run_await.
    destruct (srv [] _) as [d1 | m1].
    + rewrite run_bind, run_await. destruct (srv _ _) as [d2 | m2].
      * destruct d2; cbn [member bind run fst snd app List.length];
          (split; [| auto with arith]);
          first [ left; eexists; reflexivity | right; left; eexists; reflexivity ].
      * cbn [member bind run fst snd app List.length].
        split; [right; left; eexists; reflexivity | auto with arith].
    + cbn [member bind run fst snd app List.length].
      split; [right; left; eexists; reflexivity | auto with arith].
  - rewrite run_try_catch, run_bind, run_await.
    destruct (srv [] _) as [d1 | m1].
    + destruct (json_null_dec d1) as [-> | Hd1].
      * cbn [member bind run fst snd app List.length].
        split; [right; left; eexists; reflexivity | auto with arith].
      * rewrite member_nonnull by exact Hd1. cbn [bind].
        rewrite run_bind, run_await. destruct (srv _ _) as [d2 | m2].
        { destruct d2; cbn [member bind run fst snd app List.length];
            (split; [| auto with arith]);
            first [ left; eexists; reflexivity | right; left; eexists; reflexivity ]. }
        { cbn [member bind run fst snd app List.length].
          split; [right; left; eexists; reflexivity | auto with arith]. }
    + cbn [member bind run fst snd app List.length].
      split; [right; left; eexists; reflexivity | auto with arith].
  - cbn [run fst snd List.length].
    split; [right; right; eexists; split; reflexivity | auto with arith].
Qed.

Lemma requests_only_push_projects (projects : list json) :
  forall resources, requests_only is_get (Resources.push_projects projects resources).
Proof.
  induction projects as [| project rest IH]; intros resources;
    cbn [Resources.push_projects].
  - apply requests_only_ret.
  - apply requests_only_bind; [apply requests_only_member | intros _].
    apply requests_only_bind; [| intros ?; apply IH].
    unfold Resources.push_project_tables. requests_only_steps.
Qed.

(** X17.  The two resource handlers only ever send GET requests: to
    list and to read resources changes nothing on the remote service,
    whatever the URI and whatever the answers. *)
Theorem resource_handlers_only_get :
  forall (uri : string) (srv : remote),
    Forall is_get (calls (snd (exec Resources.listResources srv)))
    /\ Forall is_get (calls (snd (exec (Resources.readResource uri) srv))).
Proof.
  intros uri srv. split.
  - assert (H : requests_only is_get Resources.listResources).
    { unfold Resources.listResources.
      apply requests_only_try_catch; [| intros ?; apply requests_only_ret].
      apply requests_only_bind; [apply requests_only_await; reflexivity | intros ?].
      apply requests_only_bind; [apply requests_only_member | intros ?].
      apply requests_only_bind; [apply requests_only_iterate | intros ?].
      apply requests_only_bind; [apply requests_only_push_projects | intros ?].
      apply requests_only_ret. }
    apply (H srv []). constructor.
  - assert (H : requests_only is_get (Resources.readResource uri)).
    { unfold Resources.readResource. requests_only_steps. }
    apply (H srv []). constructor.
Qed.

(* ================================================================= *)
(** ** From the listed URIs back to the requests *)

Lemma prefix_append (p s : string) : String.prefix p (p ++ s) = true.
Proof.
  induction p as [| c p IH]; cbn.
  - destruct s; reflexivity.
  - destruct (ascii_dec c c) as [_ | Hn]; [exact IH | contradiction].
Qed.

Lemma substring_whole (s : string) : String.substring 0 (String.length s) s = s.
Proof.
  induction s as [| c s IH]; cbn; [reflexivity | now rewrite IH].
Qed.

Lemma substring_append (p s : string) :
  String.substring (String.length p) (String.length (p ++ s) - String.length p) (p ++ s) = s.
Proof.
  induction p as [| c p IH]; cbn [String.length append String.substring].
  - rewrite Nat.sub_0_r. apply substring_whole.
  - cbn [Nat.sub]. exact IH.
Qed.

Lemma remove_first_prefix (p s : string) : remove_first p (p ++ s) = s.
Proof.
  assert (E : remove_first p (p ++ s) =
              String.substring (String.length p)
                (String.length (p ++ s) - String.length p) (p ++ s)).
  { destruct (p ++ s) eqn:Eps; cbn [remove_first]; rewrite <- Eps, prefix_append;
      reflexivity. }
  rewrite E. apply substring_append.
Qed.

Lemma split_without_separator (sep : ascii) (s : string) :
  has_char sep s = false -> split sep s = [s].
Proof.
  induction s as [| c s IH]; cbn [has_char split]; intros H; [reflexivity|].
  apply orb_false_iff in H. destruct H as [Hc Hs].
  rewrite Hc, (IH Hs). reflexivity.
Qed.

Lemma split_at_separator (sep : ascii) (a b : string) :
  has_char sep a = false ->
  split sep (a ++ String sep b) = a :: split sep b.
Proof.
  induction a as [| c a IH]; cbn [has_char split append]; intros H.
  - rewrite Ascii.eqb_refl. reflexivity.
  - apply orb_false_iff in H. destruct H as [Hc Ha].
    rewrite Hc, (IH Ha). reflexivity.
Qed.

Lemma first_request {A : Type} (c : call) (k : http_result -> prog A) (srv : remote) :
  exists rest, calls (snd (exec (Http c k) srv)) = c :: rest.
Proof.
  unfold exec. cbn [run app].
  destruct (run_extends (k (srv [] c)) srv [(c, srv [] c)]) as [ext E].
  rewrite E. exists (calls ext). reflexivity.
Qed.

(** X18.  The URIs that the listing gives out lead the reading back to
    the same project and table.  Reading the URI of a project resource
    starts with the GET of that project; reading the URI of a table
    resource, when neither identifier contains a slash, starts with the
    GET of the metadata of that table, and once this is fulfilled goes
    on to the GET of the records under that project and the title of
    the table. *)
Theorem listed_uris_are_read_back :
  forall (project table : json) (srv : remote),
    let projectId := JS.tpl (JS.prop project "id") in
    let tableId := JS.tpl (JS.prop table "id") in
    let table_uri := Resources.uri (Resources.table_resource project table) in
    has_char "/" projectId = false ->
    has_char "/" tableId = false ->
    (exists rest,
        calls (snd (exec (Resources.readResource
                            (Resources.uri (Resources.project_resource project))) srv)) =
        get ("/api/v1/db/meta/projects/" ++ projectId) :: rest)
    /\ (exists rest,
           calls (snd (exec (Resources.readResource table_uri) srv)) =
           get ("/api/v1/db/meta/tables/" ++ tableId) :: rest)
    /\ (forall d,
           srv [] (get ("/api/v1/db/meta/tables/" ++ tableId)) = Resolved d ->
           d <> JNull ->
           calls (snd (exec (Resources.readResource table_uri) srv)) =
           [get ("/api/v1/db/meta/tables/" ++ tableId);
            get ("/api/v1/db/data/noco/" ++ projectId ++ "/" ++ JS.tpl (JS.prop d "title"))]).
Proof.
  intros project table srv projectId tableId table_uri Hp Ht.
  assert (Eparts : split "/" (remove_first "nocodb://table/" table_uri) =
                   [projectId; tableId]).
  { unfold table_uri, Resources.table_resource. cbn [Resources.uri].
    fold projectId tableId. rewrite remove_first_prefix.
    change (projectId ++ "/" ++ tableId) with (projectId ++ String "/" tableId).
    rewrite split_at_separator by exact Hp.
    rewrite split_without_separator by exact Ht. reflexivity. }
  assert (Etable : Resources.readResource table_uri =
                   try_catch
                     (tableResponse_data <- await (get ("/api/v1/db/meta/tables/" ++ tableId)) ;;
                      title <- member (Some tableResponse_data) "title" ;;
                      recordsResponse_data <-
                        await (get ("/api/v1/db/data/noco/" ++ projectId ++ "/"
                                    ++ JS.tpl title)) ;;
                      list <- member (Some recordsResponse_data) "list" ;;
                      Ret (Resources.json_contents table_uri
                             (JS.stringify2 (JObj [("metadata", tableResponse_data);
                                                   ("records", or_empty list)]))))
                     (fun error =>
                        Throw (McpError InternalError
                                 ("Erro ao buscar dados da tabela: " ++ message error)))).
  { unfold Resources.readResource.
    assert (E1 : String.prefix "nocodb://project/" table_uri = false) by reflexivity.
    assert (E2 : String.prefix "nocodb://table/" table_uri = true).
    { unfold table_uri, Resources.table_resource. cbn [Resources.uri]. apply prefix_append. }
    rewrite E1, E2. cbv zeta. rewrite Eparts. reflexivity. }
  split; [|split].
  - unfold Resources.readResource, Resources.project_resource. cbn [Resources.uri].
    fold projectId. rewrite prefix_append, remove_first_prefix.
    apply first_request.
  - rewrite Etable. apply first_request.
  - intros d Hd Hdn. rewrite Etable. unfold exec.
    rewrite run_try_catch, run_bind, run_await, Hd.
    rewrite member_nonnull by exact Hdn. cbn [bind].
    rewrite run_bind, run_await. cbn [app].
    match goal with
    | |- context [srv [?e] ?c] => destruct (srv [e] c) as [d2 | m2]
    end; [destruct d2|]; reflexivity.
Qed.

Lemma listed_uris_are_read_back_witness :
  exists rest,
    calls (snd (exec (Resources.readResource
                        (Resources.uri
                           (Resources.table_resource
                              (JObj [("id", JStr "p1"); ("title", JStr "Sales")])
                              (JObj [("id", JStr "t1"); ("title", JStr "Orders")]))))
                     (always (Resolved (JObj [("title", JStr "Orders")]))))) =
    get "/api/v1/db/meta/tables/t1" :: rest.
Proof.
  destruct (listed_uris_are_read_back
              (JObj [("id", JStr "p1"); ("title", JStr "Sales")])
              (JObj [("id", JStr "t1"); ("title", JStr "Orders")])
              (always (Resolved (JObj [("title", JStr "Orders")])))) as [_ [H _]];
    [reflexivity | reflexivity | exact H].
Defined.

(** An identifier with a slash in it does not come back: the reading
    takes what stands before the slash for the table. *)
Example slash_in_table_id :
  calls (snd (exec (Resources.readResource
                      (Resources.uri
                         (Resources.table_resource (JObj [("id", JStr "p1")])
                                                   (JObj [("id", JStr "a/b")]))))
                   (always (Rejected "Not Found")))) =
  [get "/api/v1/db/meta/tables/a"].
Proof. reflexivity. Qed.

(* ================================================================= *)
(** ** More on query_table, on project contents and on the configuration *)

(** X19.  query_table makes at most one request.  It makes none exactly
    when [filters] is [null]: [Object.keys] then throws inside the
    [try], and the handler fails with its own prefix before anything
    is sent. *)
Theorem queryTable_null_filters :
  forall (kv : list (string * json)) (srv : remote),
    let r := exec (queryTable (Some (JObj kv))) srv in
    List.length (snd r) <= 1
    /\ (snd r = [] <-> JS.assoc "filters" kv = Some JNull)
    /\ (JS.assoc "filters" kv = Some JNull ->
        exists m, r = (Threw (Error ("Failed to query table: " ++ m)), [])).
Proof.
  intros kv srv. cbv zeta. unfold exec, queryTable. cbn [destructure bind JS.prop].
  rewrite run_wrapped.
  destruct (JS.assoc "filters" kv) as [[| b | n | s | l | fs] |];
    cbn [JS.default Object_keys bind];
    try (rewrite run_bind, run_await;
         match goal with |- context [srv [] ?c] => destruct (srv [] c) end;
         cbn [run fst snd app List.length];
         (split; [auto with arith|]); (split; [|discriminate]);
         split; discriminate).
  cbn [run fst snd List.length].
  split; [auto with arith|]. split; [split; reflexivity|].
  intros _. eexists. reflexivity.
Qed.





Lemma or_default_nonempty (v : option string) (d : string) :
  d <> EmptyString -> or_default v d <> EmptyString.
Proof.
  intros Hd. unfold or_default. destruct v as [s |]; [|exact Hd].
  destruct (String.eqb_spec s EmptyString) as [_ | Hs]; assumption.
Qed.

(** X21.  Whatever the environment holds, the configured API version
    and base URL are never empty: an unset variable and an empty one
    both give the default.  With [API_VERSION] unset or empty the two
    requests of query_table_by_name go to the v2 paths. *)
Theorem load_config_defaults :
  forall (e : Env),
    API_VERSION (load_config e) <> EmptyString
    /\ NOCODB_URL (load_config e) <> EmptyString
    /\ (forall v, env_API_VERSION e = Some v -> v <> EmptyString ->
                  API_VERSION (load_config e) = v)
    /\ (env_API_VERSION e = None \/ env_API_VERSION e = Some EmptyString ->
        forall tableName limit,
          url (primary_call (load_config e) tableName limit) =
            "/api/v2/tables/" ++ JS.tpl tableName ++ "/records"
          /\ url (alternative_call (load_config e) tableName limit) =
            "/api/v2/bases/" ++ JS.tpl_str (env_NOCODB_BASE_ID e) ++ "/tables/"
            ++ JS.tpl tableName ++ "/records").
Proof.
  intros e. split; [|split; [|split]].
  - apply or_default_nonempty. discriminate.
  - apply or_default_nonempty. discriminate.
  - intros v Hv Hne. cbn [load_config API_VERSION]. rewrite Hv. unfold or_default.
    apply String.eqb_neq in Hne. rewrite Hne. reflexivity.
  - intros H tableName limit.
    assert (E : API_VERSION (load_config e) = "v2").
    { cbn [load_config API_VERSION]. destruct H as [-> | ->]; reflexivity. }
    unfold primary_call, alternative_call, get_with. cbn [url]. rewrite E.
    split; reflexivity.
Qed.
